(** * convert.py: prepending the "Open in Colab" badge to Jupyter notebooks

    A shallow embedding of [convert.py] and the properties of its
    specification.  The script parses a notebook with [json.load], removes
    the badge lines of earlier runs from the markdown cells, inserts a fresh
    badge cell at index 0 and writes the document back.

    Conventions of the embedding:
    - a Python [str] is the [string] of its UTF-8 bytes (text without an
      UTF-8 encoding, that is with lone surrogates, is not represented);
    - a value produced by [json.load] is a [json] tree; a [dict] is an
      association list in insertion order;
    - an exception that the script does not catch is a [Raise] result. *)

From Stdlib Require Import List String Ascii ZArith Bool Arith Lia.
From Stdlib Require Import Floats.SpecFloat.
Import ListNotations.
Open Scope string_scope.
Set Warnings "-register-all".

(** ** Python values and the builtins the script relies on *)

Module Py.

(** The exceptions of the operations the script applies to parsed values. *)
Inductive exn : Type :=
| AttributeError
| TypeError
| KeyError.

Inductive result (A : Type) : Type :=
| Ok (a : A)
| Raise (e : exn).

Arguments Ok {A} a.
Arguments Raise {A} e.

Definition bind {A B : Type} (r : result A) (k : A -> result B) : result B :=
  match r with
  | Ok a => k a
  | Raise e => Raise e
  end.

(** What [json.load] returns: [None], [bool], [int], [float], [str], [list]
    and [dict] with [str] keys. *)
Inductive json : Type :=
| JNull
| JBool (b : bool)
| JInt (z : Z)
| JFloat (f : spec_float)
| JStr (s : string)
| JList (l : list json)
| JDict (d : list (string * json)).

Definition dict : Type := list (string * json).

(** [d.get(k)]: the value bound to [k], if any. *)
Fixpoint dict_get (k : string) (d : dict) : option json :=
  match d with
  | [] => None
  | (k', v) :: d' => if String.eqb k k' then Some v else dict_get k d'
  end.

(** [d[k] = v]: an existing key keeps its position, a new key goes last. *)
Fixpoint dict_set (k : string) (v : json) (d : dict) : dict :=
  match d with
  | [] => [(k, v)]
  | (k', v') :: d' =>
      if String.eqb k k' then (k', v) :: d' else (k', v') :: dict_set k v d'
  end.

(** The fields of a dict other than [k], in order. *)
Definition other_fields (k : string) (d : dict) : dict :=
  filter (fun kv => negb (String.eqb k (fst kv))) d.

(** [k in d] for a dict. *)
Definition dict_mem (k : string) (d : dict) : bool :=
  match dict_get k d with
  | Some _ => true
  | None => false
  end.

(** [hay.startswith(needle)] *)
Fixpoint startswith (needle hay : string) : bool :=
  match needle, hay with
  | EmptyString, _ => true
  | String _ _, EmptyString => false
  | String a needle', String b hay' => Ascii.eqb a b && startswith needle' hay'
  end.

(** [needle in hay] for two strings: [needle] occurs in [hay]. *)
Fixpoint contains (needle hay : string) : bool :=
  startswith needle hay ||
  match hay with
  | EmptyString => false
  | String _ rest => contains needle rest
  end.

(** [needle in l] for a list: some element equals the string [needle]. *)
Definition list_mem_str (needle : string) (l : list json) : bool :=
  existsb (fun v => match v with
                    | JStr s => String.eqb needle s
                    | _ => false
                    end) l.

(** UTF-8 continuation bytes, [0x80..0xBF]. *)
Definition is_continuation (c : ascii) : bool :=
  let n := nat_of_ascii c in ((128 <=? n) && (n <? 192))%nat.

(** Does the string begin in the middle of a character? *)
Definition starts_with_continuation (s : string) : bool :=
  match s with
  | String c _ => is_continuation c
  | EmptyString => false
  end.

(** The characters of a string, each with all the bytes of its encoding. *)
Fixpoint chars (s : string) : list string :=
  match s with
  | EmptyString => []
  | String c t =>
      match chars t with
      | h :: r =>
          if starts_with_continuation t then String c h :: r
          else String c EmptyString :: h :: r
      | [] => [String c EmptyString]
      end
  end.

(** [for x in v]: the items a [for] loop or a comprehension visits.  A list
    yields its elements, a dict its keys, a string its characters; the other
    values are not iterable. *)
Definition iter (v : json) : result (list json) :=
  match v with
  | JList l => Ok l
  | JDict d => Ok (map (fun kv => JStr (fst kv)) d)
  | JStr s => Ok (map JStr (chars s))
  | JNull | JBool _ | JInt _ | JFloat _ => Raise TypeError
  end.

(** The line boundaries of [str.splitlines], on the bytes of the encoding:
    LF, VT, FF, FS, GS, RS, CR, NEL (C2 85), LS (E2 80 A8), PS (E2 80 A9).
    [rcur] is the current line, last byte first. *)
Definition ends_with_boundary (rcur : list ascii) : bool :=
  match rcur with
  | c :: before =>
      let n := nat_of_ascii c in
      (n =? 10)%nat || (n =? 11)%nat || (n =? 12)%nat || (n =? 13)%nat ||
      (n =? 28)%nat || (n =? 29)%nat || (n =? 30)%nat ||
      match before with
      | b1 :: before' =>
          ((n =? 133)%nat && (nat_of_ascii b1 =? 194)%nat) ||
          match before' with
          | b2 :: _ =>
              ((n =? 168)%nat || (n =? 169)%nat) &&
              (nat_of_ascii b1 =? 128)%nat && (nat_of_ascii b2 =? 226)%nat
          | [] => false
          end
      | [] => false
      end
  | [] => false
  end.

Definition string_of_rev (rcur : list ascii) : string :=
  string_of_list_ascii (rev rcur).

(** [s.splitlines(keepends=True)]: every line keeps its terminator, CR LF
    counts as one terminator, and a last line without terminator is kept
    when it is not empty. *)
Fixpoint splitlines_from (rcur : list ascii) (s : string) : list string :=
  match s with
  | EmptyString =>
      match rcur with
      | [] => []
      | _ :: _ => [string_of_rev rcur]
      end
  | String c t =>
      let rcur' := c :: rcur in
      let cr_lf :=
        (nat_of_ascii c =? 13)%nat &&
        match t with
        | String c' _ => (nat_of_ascii c' =? 10)%nat
        | EmptyString => false
        end in
      if ends_with_boundary rcur' && negb cr_lf
      then string_of_rev rcur' :: splitlines_from [] t
      else splitlines_from rcur' t
  end.

Definition splitlines (s : string) : list string := splitlines_from [] s.

End Py.

Export Py.

Notation "x <- r ;; k" := (bind r (fun x => k))
  (at level 61, r at next level, right associativity).

(** ** [urllib.parse.quote] *)

Module Urllib.

(** The bytes [quote] never escapes: letters, digits and [_.-~]. *)
Definition always_safe (c : ascii) : bool :=
  let n := nat_of_ascii c in
  ((65 <=? n) && (n <=? 90))%nat || ((97 <=? n) && (n <=? 122))%nat ||
  ((48 <=? n) && (n <=? 57))%nat ||
  (n =? 95)%nat || (n =? 46)%nat || (n =? 45)%nat || (n =? 126)%nat.

Definition hex_digit (n : nat) : ascii :=
  nth n (list_ascii_of_string "0123456789ABCDEF") "0"%char.

(** ['%{:02X}'.format(b)] *)
Definition percent_hex (c : ascii) : string :=
  let n := nat_of_ascii c in
  String "%" (String (hex_digit (n / 16)) (String (hex_digit (n mod 16)) "")).

(** [c in safe], for the ASCII bytes of [safe]. *)
Definition in_safe (safe : string) (c : ascii) : bool :=
  existsb (fun a => Ascii.eqb a c && (nat_of_ascii a <? 128)%nat)
          (list_ascii_of_string safe).

(** The quoter of one byte. *)
Definition quoter (safe : string) (c : ascii) : string :=
  if always_safe c || in_safe safe c then String c "" else percent_hex c.

(** [quote(s, safe=safe)]: the bytes of the encoded string, each one kept
    when it is safe and replaced by [%XX] otherwise. *)
Fixpoint quote (s safe : string) : string :=
  match s with
  | EmptyString => EmptyString
  | String c t => quoter safe c ++ quote t safe
  end.

End Urllib.

Export Urllib.

(** ** The script *)

(** The double-quote character of the f-strings. *)
Definition dq : string := String (ascii_of_nat 34) "".

(** [return "colab-badge.svg" in line].  On a string it is the substring
    test; a list is searched for an equal element and a dict for a key; the
    other values do not support [in]. *)
Definition is_badge_line (line : json) : result bool :=
  match line with
  | JStr s => Ok (contains "colab-badge.svg" s)
  | JList l => Ok (list_mem_str "colab-badge.svg" l)
  | JDict d => Ok (dict_mem "colab-badge.svg" d)
  | JNull | JBool _ | JInt _ | JFloat _ => Raise TypeError
  end.

(** [x != "markdown"] where [x] is the result of [cell.get("cell_type")]. *)
Definition not_markdown (x : option json) : bool :=
  match x with
  | Some (JStr s) => negb (String.eqb s "markdown")
  | _ => true
  end.

(** Lines 49-52: [cell.get("source", [])], a string being split into its
    lines. *)
Definition normalized_source (cell : dict) : json :=
  let source :=
    match dict_get "source" cell with
    | Some v => v
    | None => JList []
    end in
  match source with
  | JStr s => JList (map JStr (splitlines s))
  | _ => source
  end.

(** Line 55: [[line for line in source if not is_badge_line(line)]]. *)
Fixpoint filter_lines (lines : list json) : result (list json) :=
  match lines with
  | [] => Ok []
  | line :: rest =>
      b <- is_badge_line line ;;
      kept <- filter_lines rest ;;
      Ok (if negb b then line :: kept else kept)
  end.

(** Line 61.  [len(source)] is the number of items the comprehension has
    visited: [source] is a list or a dict when the comprehension succeeds. *)
Definition was_badge_only (source new_source : list json) : bool :=
  (0 <? List.length source)%nat && (List.length new_source =? 0)%nat &&
  negb (List.length source =? List.length new_source)%nat.

(** The body of the loop of [clean_notebook_cells] for one cell: [None] when
    the cell is dropped, [Some] of the cell appended to [cleaned_cells]
    otherwise. *)
Definition clean_cell (cell : json) : result (option json) :=
  match cell with
  | JDict d =>
      if not_markdown (dict_get "cell_type" d) then Ok (Some cell)
      else
        source <- iter (normalized_source d) ;;
        new_source <- filter_lines source ;;
        if negb (was_badge_only source new_source)
        then Ok (Some (JDict (dict_set "source" (JList new_source) d)))
        else Ok None
  | _ => Raise AttributeError
  end.

(** The loop of [clean_notebook_cells] over the items of [cells]. *)
Fixpoint clean_loop (cells : list json) : result (list json) :=
  match cells with
  | [] => Ok []
  | cell :: rest =>
      c <- clean_cell cell ;;
      cleaned <- clean_loop rest ;;
      Ok (match c with
          | Some cell' => cell' :: cleaned
          | None => cleaned
          end)
  end.

Definition clean_notebook_cells (cells : json) : result (list json) :=
  items <- iter cells ;;
  clean_loop items.

Definition image_url : string :=
  "https://colab.research.google.com/assets/colab-badge.svg".

Definition colab_url (repo branch file_path : string) : string :=
  let encoded_branch := Urllib.quote branch "" in
  "https://colab.research.google.com/github/" ++ repo ++ "/blob/" ++
  encoded_branch ++ "/" ++ file_path.

Definition badge_html (repo branch file_path : string) : string :=
  "<a href=" ++ dq ++ colab_url repo branch file_path ++ dq ++
  " target=" ++ dq ++ "_parent" ++ dq ++ "><img src=" ++ dq ++ image_url ++
  dq ++ " alt=" ++ dq ++ "Open In Colab" ++ dq ++ "/></a>".

Definition create_badge_cell (repo branch file_path : string) : json :=
  JDict [("cell_type", JStr "markdown");
         ("metadata", JDict []);
         ("source", JList [JStr (badge_html repo branch file_path)])].

(** Line 109: [data["cells"].insert(0, x)].  Only a list has [insert]. *)
Definition insert_first (x : json) (d : dict) : result dict :=
  match dict_get "cells" d with
  | Some (JList l) => Ok (dict_set "cells" (JList (x :: l)) d)
  | Some _ => Raise AttributeError
  | None => Raise KeyError
  end.

(** Lines 99-109 of [update_notebook]: the transformation of the parsed
    document.  Only a dict supports [data["cells"] = ...]. *)
Definition update_document (data : json) (repo branch file_path : string)
  : result json :=
  match data with
  | JDict d =>
      d1 <- match dict_get "cells" d with
            | Some cells =>
                cleaned <- clean_notebook_cells cells ;;
                Ok (dict_set "cells" (JList cleaned) d)
            | None => Ok (dict_set "cells" (JList []) d)
            end ;;
      let badge_cell := create_badge_cell repo branch file_path in
      d2 <- insert_first badge_cell d1 ;;
      Ok (JDict d2)
  | _ => Raise TypeError
  end.

(** ** Vocabulary of the specification *)

(** The cells of a document. *)
Definition cells_of (data : json) : option json :=
  match data with
  | JDict d => dict_get "cells" d
  | _ => None
  end.

(** The cleaned sequence of a document (lines 100-103): the cleaner's
    output on its cells, the empty sequence when it has none. *)
Definition cleaned_cells (d : dict) : result (list json) :=
  match dict_get "cells" d with
  | Some cells => clean_notebook_cells cells
  | None => Ok []
  end.

(** The documents of the data model: a mapping whose ["cells"], when
    present, is a sequence of cells; a cell is a mapping, and the source of a
    markdown cell, when present, is a text or a sequence of texts. *)
Definition is_text (v : json) : bool :=
  match v with
  | JStr _ => true
  | _ => false
  end.

Definition is_source (v : json) : bool :=
  match v with
  | JStr _ => true
  | JList lines => forallb is_text lines
  | _ => false
  end.

Definition is_cell (v : json) : bool :=
  match v with
  | JDict d =>
      not_markdown (dict_get "cell_type" d) ||
      match dict_get "source" d with
      | Some source => is_source source
      | None => true
      end
  | _ => false
  end.

Definition is_notebook (data : json) : bool :=
  match data with
  | JDict d =>
      match dict_get "cells" d with
      | Some (JList cells) => forallb is_cell cells
      | Some _ => false
      | None => true
      end
  | _ => false
  end.

(** [''.join(lines)] *)
Definition join (lines : list string) : string :=
  fold_right append EmptyString lines.

(** A mapping that the cleaner does not treat as a markdown cell. *)
Definition is_other_cell (cell : json) : bool :=
  match cell with
  | JDict d => not_markdown (dict_get "cell_type" d)
  | _ => false
  end.

(** The value of a hexadecimal digit of [percent_hex]. *)
Definition hex_value (c : ascii) : nat :=
  let n := nat_of_ascii c in
  if (n <? 58)%nat then (n - 48)%nat else (n - 55)%nat.

(** The inverse of [quote]: [%XX] gives back the byte [XX]. *)
Fixpoint decode_quoted (s : string) : string :=
  match s with
  | EmptyString => EmptyString
  | String c t =>
      if Ascii.eqb c "%" then
        match t with
        | String h (String l rest) =>
            String (ascii_of_nat (16 * hex_value h + hex_value l))
                   (decode_quoted rest)
        | _ => String c (decode_quoted t)
        end
      else String c (decode_quoted t)
  end.

(** The detector on a line of text. *)
Definition badge_text (s : string) : bool := contains "colab-badge.svg" s.

(** The detector rejects the line. *)
Definition not_badge (line : json) : Prop := is_badge_line line = Ok false.

(** A cell that, when it is a markdown cell, has a list of lines as source,
    none of which matches the detector. *)
Definition badge_free (cell : json) : Prop :=
  match cell with
  | JDict d =>
      dict_get "cell_type" d = Some (JStr "markdown") ->
      exists lines,
        dict_get "source" d = Some (JList lines) /\ Forall not_badge lines
  | _ => True
  end.

(** [s.endswith(suffix)]: [suffix] is [s] without some of its first
    characters. *)
Fixpoint endswith (s suffix : string) : bool :=
  String.eqb s suffix ||
  match s with
  | EmptyString => false
  | String _ rest => endswith rest suffix
  end.

(** ** Sample notebooks *)

Definition newline : string := String (ascii_of_nat 10) "".

Definition old_badge_line : string :=
  "<a href=" ++ dq ++ "https://colab.research.google.com/github/a/b/blob/dev/x.ipynb" ++ dq ++
  "><img src=" ++ dq ++ image_url ++ dq ++ "/></a>".

(** A markdown cell with a title and the badge of another repository. *)
Definition title_badge_cell : dict :=
  [("cell_type", JStr "markdown");
   ("metadata", JDict []);
   ("source", JList [JStr ("# Title" ++ newline); JStr old_badge_line])].

(** A markdown cell that holds a badge and nothing else. *)
Definition badge_only_cell : dict :=
  [("cell_type", JStr "markdown");
   ("source", JStr (old_badge_line ++ newline))].

(** A code cell whose text mentions the badge image. *)
Definition code_cell : dict :=
  [("cell_type", JStr "code");
   ("execution_count", JNull);
   ("outputs", JList []);
   ("source", JList [JStr "url = 'assets/colab-badge.svg'"])].

(** A cell without [cell_type], its source a string with a badge line. *)
Definition untyped_cell : dict :=
  [("source", JStr ("see" ++ newline ++ old_badge_line))].

(** Markdown cells with an empty list, an empty string and nothing as
    source. *)
Definition empty_list_cell : dict :=
  [("cell_type", JStr "markdown"); ("source", JList [])].

Definition empty_text_cell : dict :=
  [("cell_type", JStr "markdown"); ("source", JStr "")].

Definition no_source_cell : dict :=
  [("cell_type", JStr "markdown"); ("metadata", JDict [])].

Definition sample_notebook : json :=
  JDict [("metadata", JDict [("kernelspec", JDict [("name", JStr "python3")])]);
         ("cells", JList [JDict badge_only_cell; JDict title_badge_cell;
                          JDict code_cell]);
         ("nbformat", JInt 4);
         ("nbformat_minor", JInt 5)].

(** ** Files and standard output

    The file system and the [json] parser and printer are outside the
    script: they are the parameters of this section.  [load] stands for
    lines 93-94 ([open] and [json.load]); its [inl] is the text of the
    exception caught at line 95.  [dump] stands for lines 113-116; it returns
    the file system after the write, with the text of the exception caught
    at line 117 when there is one. *)

Section Files.

Variable fs : Type.
Variable path_exists : fs -> string -> bool.
Variable load : fs -> string -> string + json.
Variable dump : fs -> string -> json -> fs * option string.

Record world : Type := World { files : fs; stdout : list string }.

Definition print (line : string) (w : world) : world :=
  World (files w) (stdout w ++ [line])%list.

(** [update_notebook]: the world after the call, and [Raise] when an
    exception leaves the function. *)
Definition update_notebook (file_path repo branch : string) (w : world)
  : world * result unit :=
  let w := print ("Updating badge for " ++ file_path ++ " -> " ++ branch) w in
  match load (files w) file_path with
  | inl e => (print ("Error reading " ++ file_path ++ ": " ++ e) w, Ok tt)
  | inr data =>
      match update_document data repo branch file_path with
      | Raise e => (w, Raise e)
      | Ok data' =>
          match dump (files w) file_path data' with
          | (files', None) => (World files' (stdout w), Ok tt)
          | (files', Some e) =>
              (print ("Error writing " ++ file_path ++ ": " ++ e)
                     (World files' (stdout w)), Ok tt)
          end
      end
  end.

(** The loop of [main] over [args.files]. *)
Fixpoint main_loop (paths : list string) (repo branch : string) (w : world)
  : world * result unit :=
  match paths with
  | [] => (w, Ok tt)
  | file_path :: rest =>
      if negb (path_exists (files w) file_path)
      then main_loop rest repo branch (print ("File not found: " ++ file_path) w)
      else
        match update_notebook file_path repo branch w with
        | (w', Ok _) => main_loop rest repo branch w'
        | (w', Raise e) => (w', Raise e)
        end
  end.

(** What [parse_args] returns. *)
Record namespace : Type :=
  Namespace { arg_files : list string; arg_repo : string; arg_branch : string }.

Definition main (args : namespace) (w : world) : world * result unit :=
  main_loop (arg_files args) (arg_repo args) (arg_branch args) w.

End Files.

Arguments World {fs} files stdout.
Arguments files {fs} w.
Arguments stdout {fs} w.
Arguments print {fs} line w.
Arguments update_notebook {fs} load dump file_path repo branch w.
Arguments main_loop {fs} path_exists load dump paths repo branch w.
Arguments main {fs} path_exists load dump args w.

(** A file system for the examples: paths with their text.  Its parser
    knows the empty document only; its printer writes a placeholder. *)
Definition toy_files : list (string * string) :=
  [("bad.ipynb", "not a notebook"); ("empty.ipynb", "{}")].

Definition toy_read (fs : list (string * string)) (path : string)
  : option string :=
  match find (fun e => String.eqb (fst e) path) fs with
  | Some e => Some (snd e)
  | None => None
  end.

Definition toy_exists (fs : list (string * string)) (path : string) : bool :=
  match toy_read fs path with
  | Some _ => true
  | None => false
  end.

Definition toy_load (fs : list (string * string)) (path : string)
  : string + json :=
  match toy_read fs path with
  | Some text =>
      if String.eqb text "{}" then inr (JDict []) else inl "Expecting value"
  | None => inl "No such file or directory"
  end.

Definition toy_dump (fs : list (string * string)) (path : string)
  (data : json) : list (string * string) * option string :=
  (map (fun e => if String.eqb (fst e) path then (fst e, "<json>") else e) fs,
   None).

(** A writer that fails, and a parser that knows the empty array. *)
Definition toy_dump_denied (fs : list (string * string)) (path : string)
  (data : json) : list (string * string) * option string :=
  (fs, Some "Permission denied").

Definition toy_files_array : list (string * string) :=
  [("array.ipynb", "[]"); ("empty.ipynb", "{}")].

Definition toy_load_array (fs : list (string * string)) (path : string)
  : string + json :=
  match toy_read fs path with
  | Some text =>
      if String.eqb text "[]" then inr (JList []) else toy_load fs path
  | None => inl "No such file or directory"
  end.

(** ** Lemmas on the builtins *)

Section ResultLemmas.

Context {A B : Type}.

Lemma bind_ok (r : result A) (k : A -> result B) (b : B) :
  bind r k = Ok b -> exists a, r = Ok a /\ k a = Ok b.
Proof.
  destruct r as [a | e]; simpl; intros H.
  - exists a. split; [reflexivity | exact H].
  - discriminate H.
Qed.

Lemma bind_ret (r : result A) : bind r (fun a => Ok a) = r.
Proof. destruct r; reflexivity. Qed.

End ResultLemmas.

Section DictLemmas.

Lemma dict_get_set_same (k : string) (v : json) (d : dict) :
  dict_get k (dict_set k v d) = Some v.
Proof.
  induction d as [| [k' v'] d IH]; simpl.
  - rewrite String.eqb_refl. reflexivity.
  - destruct (String.eqb k k') eqn:E; simpl; rewrite E; auto.
Qed.

Lemma dict_get_set_other (k k' : string) (v : json) (d : dict) :
  k <> k' -> dict_get k' (dict_set k v d) = dict_get k' d.
Proof.
  intros Hne. induction d as [| [k0 v0] d IH]; simpl.
  - destruct (String.eqb k' k) eqn:E; [| reflexivity].
    apply String.eqb_eq in E. congruence.
  - destruct (String.eqb k k0) eqn:E; simpl.
    + apply String.eqb_eq in E. subst k0.
      destruct (String.eqb k' k) eqn:E'; [| reflexivity].
      apply String.eqb_eq in E'. congruence.
    + rewrite IH. reflexivity.
Qed.

Lemma dict_set_set (k : string) (v v' : json) (d : dict) :
  dict_set k v (dict_set k v' d) = dict_set k v d.
Proof.
  induction d as [| [k0 v0] d IH]; simpl.
  - rewrite String.eqb_refl. reflexivity.
  - destruct (String.eqb k k0) eqn:E; simpl; rewrite E; congruence.
Qed.

Lemma dict_set_absent (k : string) (v : json) (d : dict) :
  dict_get k d = None -> dict_set k v d = (d ++ [(k, v)])%list.
Proof.
  induction d as [| [k0 v0] d IH]; simpl; intros H.
  - reflexivity.
  - destruct (String.eqb k k0); [discriminate H |].
    rewrite IH by exact H. reflexivity.
Qed.

Lemma dict_set_same_value (k : string) (v : json) (d : dict) :
  dict_get k d = Some v -> dict_set k v d = d.
Proof.
  induction d as [| [k0 v0] d IH]; simpl; intros H.
  - discriminate H.
  - destruct (String.eqb k k0).
    + congruence.
    + rewrite IH by exact H. reflexivity.
Qed.

Lemma other_fields_set (k : string) (v : json) (d : dict) :
  other_fields k (dict_set k v d) = other_fields k d.
Proof.
  unfold other_fields.
  induction d as [| [k0 v0] d IH]; simpl.
  - rewrite String.eqb_refl. reflexivity.
  - destruct (String.eqb k k0) eqn:E; simpl; rewrite E; simpl; congruence.
Qed.

End DictLemmas.

Section ContainsLemmas.

Lemma startswith_app (n a b : string) :
  startswith n a = true -> startswith n (a ++ b) = true.
Proof.
  revert a. induction n as [| c n IH]; intros a H; [reflexivity |].
  destruct a as [| c' a]; simpl in *; [discriminate H |].
  apply andb_true_iff in H. destruct H as [Hc Hn].
  rewrite Hc, (IH a Hn). reflexivity.
Qed.

Lemma contains_startswith (n h : string) :
  startswith n h = true -> contains n h = true.
Proof. intros H. destruct h; simpl; rewrite H; reflexivity. Qed.

Lemma contains_app_r (n a b : string) :
  contains n b = true -> contains n (a ++ b) = true.
Proof.
  intros H. induction a as [| c a IH]; simpl; [exact H |].
  rewrite IH. apply orb_true_r.
Qed.

Lemma contains_app_l (n a b : string) :
  contains n a = true -> contains n (a ++ b) = true.
Proof.
  induction a as [| c a IH]; simpl; intros H.
  - rewrite orb_false_r in H. apply contains_startswith.
    apply (startswith_app n "" b H).
  - apply orb_true_iff in H. destruct H as [H | H].
    + change (String c (a ++ b)) with (String c a ++ b).
      rewrite (startswith_app _ _ b H). reflexivity.
    + rewrite (IH H). apply orb_true_r.
Qed.

End ContainsLemmas.

(** ** Lemmas on the cleaner *)

Section CleanerLemmas.

Lemma filter_lines_no_badge (lines kept : list json) :
  filter_lines lines = Ok kept ->
  Forall not_badge kept.
Proof.
  revert kept. induction lines as [| line rest IH]; simpl; intros kept H.
  - injection H as <-. constructor.
  - apply bind_ok in H. destruct H as (b & Hb & H).
    apply bind_ok in H. destruct H as (k & Hk & H).
    injection H as <-. destruct b; simpl; auto.
Qed.

Lemma filter_lines_fixed (kept : list json) :
  Forall not_badge kept ->
  filter_lines kept = Ok kept.
Proof.
  induction 1 as [| l kept Hl _ IH]; simpl; [reflexivity |].
  rewrite Hl, IH. reflexivity.
Qed.

Lemma filter_lines_text (ls : list string) :
  filter_lines (map JStr ls) =
  Ok (map JStr (filter (fun s => negb (contains "colab-badge.svg" s)) ls)).
Proof.
  induction ls as [| s ls IH]; [reflexivity |].
  change (filter_lines (map JStr (s :: ls)))
    with (b <- is_badge_line (JStr s) ;;
          kept <- filter_lines (map JStr ls) ;;
          Ok (if negb b then JStr s :: kept else kept)).
  rewrite IH. cbn [is_badge_line bind filter].
  destruct (contains "colab-badge.svg" s); reflexivity.
Qed.

Lemma was_badge_only_refl (l : list json) : was_badge_only l l = false.
Proof.
  unfold was_badge_only. rewrite Nat.eqb_refl. apply andb_false_r.
Qed.

Lemma clean_cell_not_markdown (d : dict) :
  not_markdown (dict_get "cell_type" d) = true ->
  clean_cell (JDict d) = Ok (Some (JDict d)).
Proof. intros H. unfold clean_cell. rewrite H. reflexivity. Qed.

Lemma clean_cell_markdown (d : dict) :
  not_markdown (dict_get "cell_type" d) = false ->
  clean_cell (JDict d) =
  (source <- iter (normalized_source d) ;;
   new_source <- filter_lines source ;;
   if negb (was_badge_only source new_source)
   then Ok (Some (JDict (dict_set "source" (JList new_source) d)))
   else Ok None).
Proof. intros H. unfold clean_cell. rewrite H. reflexivity. Qed.

Lemma normalized_source_set (new_source : list json) (d : dict) :
  normalized_source (dict_set "source" (JList new_source) d) =
  JList new_source.
Proof.
  unfold normalized_source. rewrite dict_get_set_same. reflexivity.
Qed.

Lemma clean_cell_fixed (cell cell' : json) :
  clean_cell cell = Ok (Some cell') -> clean_cell cell' = Ok (Some cell').
Proof.
  destruct cell as [| | | | | | d]; try discriminate.
  destruct (not_markdown (dict_get "cell_type" d)) eqn:E.
  - rewrite (clean_cell_not_markdown d E). intros H. injection H as <-.
    apply clean_cell_not_markdown. exact E.
  - rewrite (clean_cell_markdown d E). intros H.
    apply bind_ok in H. destruct H as (source & _ & H).
    apply bind_ok in H. destruct H as (new_source & Hf & H).
    destruct (negb (was_badge_only source new_source)); [| discriminate H].
    injection H as <-.
    rewrite clean_cell_markdown
      by (rewrite dict_get_set_other by discriminate; exact E).
    rewrite normalized_source_set. cbn [iter bind].
    rewrite (filter_lines_fixed _ (filter_lines_no_badge _ _ Hf)).
    cbn [bind]. rewrite was_badge_only_refl, dict_set_set. reflexivity.
Qed.

Lemma clean_loop_fixed (cells cleaned : list json) :
  clean_loop cells = Ok cleaned -> clean_loop cleaned = Ok cleaned.
Proof.
  revert cleaned. induction cells as [| cell rest IH]; simpl; intros cleaned H.
  - injection H as <-. reflexivity.
  - apply bind_ok in H. destruct H as (c & Hc & H).
    apply bind_ok in H. destruct H as (r & Hr & H).
    injection H as <-. destruct c as [cell' |].
    + simpl. rewrite (clean_cell_fixed _ _ Hc). simpl.
      rewrite (IH _ Hr). reflexivity.
    + apply IH. exact Hr.
Qed.

Lemma clean_loop_app (a b : list json) :
  clean_loop (a ++ b) =
  (x <- clean_loop a ;; y <- clean_loop b ;; Ok (x ++ y)%list).
Proof.
  induction a as [| cell a IH]; simpl.
  - symmetry. apply bind_ret.
  - destruct (clean_cell cell) as [c | e]; simpl; [| reflexivity].
    rewrite IH. destruct (clean_loop a) as [x | e]; simpl; [| reflexivity].
    destruct (clean_loop b) as [y | e]; simpl; [| reflexivity].
    destruct c; reflexivity.
Qed.

Lemma badge_html_is_badge (repo branch file_path : string) :
  contains "colab-badge.svg" (badge_html repo branch file_path) = true.
Proof.
  unfold badge_html.
  do 10 apply contains_app_r. apply contains_app_l. reflexivity.
Qed.

Lemma clean_badge_cell (repo branch file_path : string) :
  clean_cell (create_badge_cell repo branch file_path) = Ok None.
Proof.
  unfold create_badge_cell.
  rewrite clean_cell_markdown by reflexivity.
  cbn [normalized_source dict_get String.eqb Ascii.eqb Bool.eqb iter bind
       filter_lines is_badge_line].
  rewrite badge_html_is_badge. reflexivity.
Qed.

End CleanerLemmas.

(** ** Lemmas on the updater *)

Section UpdaterLemmas.

Variables repo branch file_path : string.

Lemma insert_first_set (x : json) (l : list json) (d : dict) :
  insert_first x (dict_set "cells" (JList l) d) =
  Ok (dict_set "cells" (JList (x :: l)) d).
Proof.
  unfold insert_first. rewrite dict_get_set_same, dict_set_set. reflexivity.
Qed.

Lemma update_document_ok (d : dict) (cleaned : list json) :
  cleaned_cells d = Ok cleaned ->
  update_document (JDict d) repo branch file_path =
  Ok (JDict (dict_set "cells" (JList (create_badge_cell repo branch file_path :: cleaned)) d)).
Proof.
  unfold cleaned_cells, update_document. intros H.
  destruct (dict_get "cells" d) as [cells |].
  - rewrite H. cbn [bind]. rewrite insert_first_set. reflexivity.
  - injection H as <-. cbn [bind]. rewrite insert_first_set. reflexivity.
Qed.

Lemma update_document_inv (data out : json) :
  update_document data repo branch file_path = Ok out ->
  exists d cleaned,
    data = JDict d /\ cleaned_cells d = Ok cleaned /\
    out = JDict (dict_set "cells" (JList (create_badge_cell repo branch file_path :: cleaned)) d).
Proof.
  intros H. destruct data as [| | | | | | d]; try discriminate H.
  destruct (cleaned_cells d) as [cleaned | e] eqn:E.
  - rewrite (update_document_ok d cleaned E) in H. injection H as <-.
    exists d, cleaned. auto.
  - exfalso. unfold cleaned_cells in E. unfold update_document in H.
    destruct (dict_get "cells" d); [| discriminate E].
    rewrite E in H. discriminate H.
Qed.

Lemma cleaned_cells_fixed (d : dict) (cleaned : list json) :
  cleaned_cells d = Ok cleaned -> clean_loop cleaned = Ok cleaned.
Proof.
  unfold cleaned_cells, clean_notebook_cells. intros H.
  destruct (dict_get "cells" d) as [cells |].
  - apply bind_ok in H. destruct H as (items & _ & H).
    apply (clean_loop_fixed items). exact H.
  - injection H as <-. reflexivity.
Qed.

Lemma clean_cell_badge_free (cell cell' : json) :
  clean_cell cell = Ok (Some cell') -> badge_free cell'.
Proof.
  destruct cell as [| | | | | | d]; try discriminate.
  destruct (not_markdown (dict_get "cell_type" d)) eqn:E.
  - rewrite (clean_cell_not_markdown d E). intros H. injection H as <-.
    simpl. intros Hm. rewrite Hm in E. discriminate E.
  - rewrite (clean_cell_markdown d E). intros H.
    apply bind_ok in H. destruct H as (source & _ & H).
    apply bind_ok in H. destruct H as (new_source & Hf & H).
    destruct (negb (was_badge_only source new_source)); [| discriminate H].
    injection H as <-. simpl. intros _. exists new_source.
    rewrite dict_get_set_same. split; [reflexivity |].
    apply (filter_lines_no_badge source). exact Hf.
Qed.

Lemma clean_loop_badge_free (cells cleaned : list json) :
  clean_loop cells = Ok cleaned -> Forall badge_free cleaned.
Proof.
  revert cleaned. induction cells as [| cell rest IH]; simpl; intros cleaned H.
  - injection H as <-. constructor.
  - apply bind_ok in H. destruct H as (c & Hc & H).
    apply bind_ok in H. destruct H as (r & Hr & H).
    injection H as <-. destruct c as [cell' |]; [constructor |]; auto.
    apply (clean_cell_badge_free cell). exact Hc.
Qed.

Lemma cleaned_cells_badge_free (d : dict) (cleaned : list json) :
  cleaned_cells d = Ok cleaned -> Forall badge_free cleaned.
Proof.
  unfold cleaned_cells, clean_notebook_cells. intros H.
  destruct (dict_get "cells" d) as [cells |].
  - apply bind_ok in H. destruct H as (items & _ & H).
    apply (clean_loop_badge_free items). exact H.
  - injection H as <-. constructor.
Qed.

Lemma filter_lines_total (lines : list json) :
  forallb is_text lines = true -> exists kept, filter_lines lines = Ok kept.
Proof.
  induction lines as [| line rest IH]; simpl; intros H.
  - exists []. reflexivity.
  - apply andb_true_iff in H. destruct H as [Hl Hr].
    destruct (IH Hr) as (kept & Hk). rewrite Hk.
    destruct line; try discriminate Hl. simpl. eauto.
Qed.

Lemma clean_cell_total (cell : json) :
  is_cell cell = true -> exists c, clean_cell cell = Ok c.
Proof.
  destruct cell as [| | | | | | d]; try discriminate. simpl.
  destruct (not_markdown (dict_get "cell_type" d)); simpl; [eauto |].
  intros H.
  assert (Hs : exists lines,
             iter (normalized_source d) = Ok lines /\
             forallb is_text lines = true).
  { unfold normalized_source.
    destruct (dict_get "source" d) as [[| | | | t | lines |] |];
      try discriminate H.
    - exists (map JStr (splitlines t)). split; [reflexivity |].
      apply forallb_forall. intros x Hx. apply in_map_iff in Hx.
      destruct Hx as (y & <- & _). reflexivity.
    - exists lines. auto.
    - exists []. auto. }
  destruct Hs as (lines & -> & Ht). cbn [bind].
  destruct (filter_lines_total lines Ht) as (kept & ->). cbn [bind].
  destruct (negb (was_badge_only lines kept)); eauto.
Qed.

Lemma clean_loop_total (cells : list json) :
  forallb is_cell cells = true -> exists cleaned, clean_loop cells = Ok cleaned.
Proof.
  induction cells as [| cell rest IH]; simpl; intros H.
  - eauto.
  - apply andb_true_iff in H. destruct H as [Hc Hr].
    destruct (clean_cell_total cell Hc) as (c & ->).
    destruct (IH Hr) as (cleaned & ->). simpl. eauto.
Qed.

(** The update of a document of the data model returns. *)
Lemma update_document_total (data : json) :
  is_notebook data = true ->
  exists d cleaned,
    data = JDict d /\ cleaned_cells d = Ok cleaned /\
    update_document data repo branch file_path =
    Ok (JDict (dict_set "cells"
                 (JList (create_badge_cell repo branch file_path :: cleaned))
                 d)).
Proof.
  destruct data as [| | | | | | d]; try discriminate. simpl. intros H.
  assert (Hc : exists cleaned, cleaned_cells d = Ok cleaned).
  { unfold cleaned_cells, clean_notebook_cells.
    destruct (dict_get "cells" d) as [[| | | | | cells |] |];
      try discriminate H; [| eauto].
    apply (clean_loop_total cells H). }
  destruct Hc as (cleaned & Hc). exists d, cleaned.
  split; [reflexivity |]. split; [exact Hc |].
  apply update_document_ok. exact Hc.
Qed.

(** A parsed value that is not a mapping makes the update raise. *)
Lemma update_document_not_mapping (data : json) :
  (forall d, data <> JDict d) ->
  update_document data repo branch file_path = Raise TypeError.
Proof.
  intros H. destruct data; try reflexivity. exfalso. apply (H d). reflexivity.
Qed.

(** The document of a successful update is a fixed point of the update. *)
Lemma update_document_fixed (data once : json) :
  update_document data repo branch file_path = Ok once ->
  update_document once repo branch file_path = Ok once.
Proof.
  intros H. apply update_document_inv in H.
  destruct H as (d & cleaned & -> & Hc & ->).
  rewrite (update_document_ok _ cleaned).
  - rewrite dict_set_set. reflexivity.
  - unfold cleaned_cells, clean_notebook_cells.
    rewrite dict_get_set_same. cbn [iter bind clean_loop].
    rewrite clean_badge_cell. cbn [bind].
    rewrite (cleaned_cells_fixed d cleaned Hc). reflexivity.
Qed.

End UpdaterLemmas.

(** ** Properties of the updater *)

(** C1: idempotency.  The update of a notebook document returns a
    document, and a second update with the same repository, branch and path
    returns that document again: the cells after the second run are the
    cells after the first, with one badge cell and not two. *)
Theorem update_document_idempotent
  (data : json) (repo branch file_path : string) :
  is_notebook data = true ->
  exists once twice,
    update_document data repo branch file_path = Ok once /\
    update_document once repo branch file_path = Ok twice /\
    cells_of twice = cells_of once /\
    twice = once.
Proof.
  intros Hn.
  destruct (update_document_total repo branch file_path data Hn)
    as (d & cleaned & _ & _ & H1).
  eexists. eexists. split; [exact H1 |].
  split; [apply (update_document_fixed _ _ _ data); exact H1 |].
  split; reflexivity.
Qed.

Lemma update_document_idempotent_witness :
  exists once twice,
    update_document sample_notebook "o/r" "feature/x y" "nb.ipynb" = Ok once /\
    update_document once "o/r" "feature/x y" "nb.ipynb" = Ok twice /\
    cells_of twice = cells_of once /\
    twice = once.
Proof.
  apply (update_document_idempotent sample_notebook). reflexivity.
Defined.

(** C2: the document after an update.  The update of a notebook document
    returns a document in which the cell at index 0 is the badge cell built
    for the repository, branch and path, the cell at index [i] of the cleaned
    sequence is at index [i + 1], and every markdown cell after the badge
    cell has a list of lines as source, none of which matches the
    detector. *)
Theorem update_document_post
  (data : json) (repo branch file_path : string) :
  is_notebook data = true ->
  exists d cleaned out,
    data = JDict d /\
    cleaned_cells d = Ok cleaned /\
    update_document data repo branch file_path = Ok out /\
    cells_of out =
      Some (JList (create_badge_cell repo branch file_path :: cleaned)) /\
    (forall i cell,
        nth_error cleaned i = Some cell ->
        nth_error (create_badge_cell repo branch file_path :: cleaned) (S i) =
        Some cell) /\
    Forall badge_free cleaned.
Proof.
  intros Hn.
  destruct (update_document_total repo branch file_path data Hn)
    as (d & cleaned & Hd & Hc & H1).
  exists d, cleaned. eexists.
  split; [exact Hd |]. split; [exact Hc |]. split; [exact H1 |].
  split; [| split].
  - simpl. apply dict_get_set_same.
  - intros i cell Hi. exact Hi.
  - apply (cleaned_cells_badge_free d). exact Hc.
Qed.

Lemma update_document_post_witness :
  exists out cleaned,
    update_document sample_notebook "o/r" "main" "nb.ipynb" = Ok out /\
    cells_of out =
      Some (JList (create_badge_cell "o/r" "main" "nb.ipynb" :: cleaned)) /\
    Forall badge_free cleaned.
Proof.
  destruct (update_document_post sample_notebook "o/r" "main" "nb.ipynb")
    as (d & cleaned & out & _ & _ & Hout & Hcells & _ & Hfree);
    [reflexivity |].
  exists out, cleaned. auto.
Defined.

(** C7: the frame of the update.  The update of a notebook document returns
    a document whose fields other than ["cells"] are those of the input,
    with the same values and in the same order. *)
Theorem update_document_frame
  (data : json) (repo branch file_path : string) :
  is_notebook data = true ->
  exists d d',
    data = JDict d /\
    update_document data repo branch file_path = Ok (JDict d') /\
    other_fields "cells" d' = other_fields "cells" d /\
    forall k, k <> "cells" -> dict_get k d' = dict_get k d.
Proof.
  intros Hn.
  destruct (update_document_total repo branch file_path data Hn)
    as (d & cleaned & Hd & _ & H1).
  exists d. eexists. split; [exact Hd |]. split; [exact H1 |]. split.
  - apply other_fields_set.
  - intros k Hk. apply dict_get_set_other. congruence.
Qed.

Lemma update_document_frame_witness :
  exists d',
    update_document sample_notebook "o/r" "main" "nb.ipynb" = Ok (JDict d') /\
    dict_get "metadata" d' =
      Some (JDict [("kernelspec", JDict [("name", JStr "python3")])]) /\
    dict_get "nbformat" d' = Some (JInt 4) /\
    dict_get "nbformat_minor" d' = Some (JInt 5).
Proof.
  destruct (update_document_frame sample_notebook "o/r" "main" "nb.ipynb")
    as (d & d' & Hd & Hout & _ & Hget); [reflexivity |].
  exists d'. split; [exact Hout |].
  rewrite !Hget by discriminate.
  injection Hd as <-. repeat split; reflexivity.
Defined.

(** C8: a document without ["cells"].  The update succeeds and adds the
    field, bound to the sequence whose only element is the badge cell; the
    empty document becomes the document with that field alone. *)
Theorem update_document_no_cells
  (d : dict) (repo branch file_path : string) :
  dict_get "cells" d = None ->
  update_document (JDict d) repo branch file_path =
  Ok (JDict (d ++ [("cells",
                    JList [create_badge_cell repo branch file_path])])%list).
Proof.
  intros H.
  rewrite (update_document_ok repo branch file_path d []).
  - rewrite (dict_set_absent _ _ _ H). reflexivity.
  - unfold cleaned_cells. rewrite H. reflexivity.
Qed.

Lemma update_document_no_cells_witness :
  update_document (JDict []) "o/r" "main" "nb.ipynb" =
  Ok (JDict [("cells", JList [create_badge_cell "o/r" "main" "nb.ipynb"])]).
Proof. apply (update_document_no_cells []). reflexivity. Defined.

(** ** Properties of the cleaner *)

Section CleanerProperties.

(** One cell between two sequences that the cleaner accepts. *)
Lemma clean_loop_middle (before after before' after' : list json)
  (cell : json) (c : option json) :
  clean_loop before = Ok before' ->
  clean_loop after = Ok after' ->
  clean_cell cell = Ok c ->
  clean_loop (before ++ cell :: after) =
  Ok (before' ++ match c with
                 | Some cell' => cell' :: after'
                 | None => after'
                 end)%list.
Proof.
  intros Hb Ha Hc. rewrite clean_loop_app, Hb. cbn [bind clean_loop].
  rewrite Hc, Ha. reflexivity.
Qed.

Lemma not_markdown_other (v : json) :
  v <> JStr "markdown" -> not_markdown (Some v) = true.
Proof.
  intros H. destruct v as [| | | | s | |]; try reflexivity.
  simpl. destruct (String.eqb s "markdown") eqn:E; [| reflexivity].
  apply String.eqb_eq in E. congruence.
Qed.

Lemma filter_all_badges (ls : list string) :
  forallb badge_text ls = true ->
  filter (fun s => negb (contains "colab-badge.svg" s)) ls = [].
Proof.
  induction ls as [| s ls IH]; simpl; [reflexivity |].
  intros H. apply andb_true_iff in H. destruct H as [Hs Hls].
  unfold badge_text in Hs. rewrite Hs. simpl. apply IH. exact Hls.
Qed.

Lemma filter_some_text (ls : list string) :
  existsb (fun s => negb (badge_text s)) ls = true ->
  filter (fun s => negb (contains "colab-badge.svg" s)) ls <> [].
Proof.
  induction ls as [| s ls IH]; simpl; [discriminate |].
  intros H. unfold badge_text in H.
  destruct (contains "colab-badge.svg" s); simpl in *; [auto | discriminate].
Qed.

(** The cleaner on a markdown cell whose lines are text. *)
Lemma clean_cell_text (d : dict) (ls : list string) :
  dict_get "cell_type" d = Some (JStr "markdown") ->
  normalized_source d = JList (map JStr ls) ->
  clean_cell (JDict d) =
  let kept := filter (fun s => negb (contains "colab-badge.svg" s)) ls in
  if negb (was_badge_only (map JStr ls) (map JStr kept))
  then Ok (Some (JDict (dict_set "source" (JList (map JStr kept)) d)))
  else Ok None.
Proof.
  intros Hm Hs. rewrite clean_cell_markdown by (rewrite Hm; reflexivity).
  rewrite Hs. cbn [iter bind]. rewrite filter_lines_text. reflexivity.
Qed.

End CleanerProperties.

(** C3: badge-only cells and mixed cells.  Take a markdown cell whose
    normalized source is the sequence of text lines [ls], anywhere in a
    sequence of cells that the cleaner accepts.  When [ls] is not empty and
    all its lines match the detector, the cell is absent from the output.
    When [ls] has a line that matches and a line that does not, the cell is
    in the output, its source being the lines of [ls] that do not match, in
    their order. *)
Theorem clean_badge_only_and_mixed
  (d : dict) (ls : list string) (before after before' after' : list json) :
  dict_get "cell_type" d = Some (JStr "markdown") ->
  normalized_source d = JList (map JStr ls) ->
  clean_loop before = Ok before' ->
  clean_loop after = Ok after' ->
  (ls <> [] -> forallb badge_text ls = true ->
   clean_loop (before ++ JDict d :: after) = Ok (before' ++ after')%list) /\
  (existsb badge_text ls = true ->
   existsb (fun s => negb (badge_text s)) ls = true ->
   clean_loop (before ++ JDict d :: after) =
   Ok (before' ++
       JDict (dict_set "source"
                (JList (map JStr (filter (fun s => negb (badge_text s)) ls)))
                d) :: after')%list).
Proof.
  intros Hm Hs Hb Ha. split.
  - intros Hne Hall.
    apply (clean_loop_middle before after before' after' (JDict d) None Hb Ha).
    rewrite (clean_cell_text d ls Hm Hs). cbv zeta.
    rewrite (filter_all_badges ls Hall).
    destruct ls as [| s ls]; [congruence | reflexivity].
  - intros _ Hsome.
    apply (clean_loop_middle before after before' after' (JDict d)
             (Some _) Hb Ha).
    rewrite (clean_cell_text d ls Hm Hs). cbv zeta.
    change (fun s => negb (badge_text s))
      with (fun s => negb (contains "colab-badge.svg" s)).
    pose proof (filter_some_text ls Hsome) as Hk.
    destruct (filter (fun s => negb (contains "colab-badge.svg" s)) ls)
      as [| k kept]; [congruence |].
    unfold was_badge_only. cbn [map List.length Nat.eqb andb negb].
    rewrite andb_false_r. reflexivity.
Qed.

Lemma clean_badge_only_and_mixed_witness :
  clean_loop [JDict code_cell; JDict badge_only_cell; JDict code_cell] =
    Ok [JDict code_cell; JDict code_cell] /\
  clean_loop [JDict code_cell; JDict title_badge_cell; JDict code_cell] =
    Ok [JDict code_cell;
        JDict [("cell_type", JStr "markdown");
               ("metadata", JDict []);
               ("source", JList [JStr ("# Title" ++ newline)])];
        JDict code_cell].
Proof.
  split.
  - apply (clean_badge_only_and_mixed badge_only_cell
             [old_badge_line ++ newline]
             [JDict code_cell] [JDict code_cell]
             [JDict code_cell] [JDict code_cell]);
      solve [reflexivity | discriminate].
  - apply (clean_badge_only_and_mixed title_badge_cell
             ["# Title" ++ newline; old_badge_line]
             [JDict code_cell] [JDict code_cell]
             [JDict code_cell] [JDict code_cell]);
      reflexivity.
Defined.

(** C5 as stated fails: a markdown cell whose source is the empty string, or
    that has no source, is kept but not unchanged.  The first comes out with
    the empty list as source, the second with a new ["source"] field. *)
Lemma empty_source_cell_is_rewritten :
  clean_notebook_cells (JList [JDict empty_text_cell]) =
    Ok [JDict [("cell_type", JStr "markdown"); ("source", JList [])]] /\
  clean_notebook_cells (JList [JDict empty_text_cell]) <>
    Ok [JDict empty_text_cell] /\
  clean_notebook_cells (JList [JDict no_source_cell]) =
    Ok [JDict [("cell_type", JStr "markdown"); ("metadata", JDict []);
               ("source", JList [])]] /\
  clean_notebook_cells (JList [JDict no_source_cell]) <>
    Ok [JDict no_source_cell].
Proof.
  split; [reflexivity |]. split; [discriminate |].
  split; [reflexivity | discriminate].
Qed.

(** C5, amended: a markdown cell whose source is the empty list, the empty
    string or absent is kept, anywhere in a sequence that the cleaner
    accepts, with the empty list as its source and its other fields as they
    were; when the source was the empty list already the cell is unchanged. *)
Theorem clean_empty_source_kept
  (d : dict) (before after before' after' : list json) :
  dict_get "cell_type" d = Some (JStr "markdown") ->
  dict_get "source" d = Some (JList []) \/
  dict_get "source" d = Some (JStr "") \/
  dict_get "source" d = None ->
  clean_loop before = Ok before' ->
  clean_loop after = Ok after' ->
  clean_loop (before ++ JDict d :: after) =
    Ok (before' ++ JDict (dict_set "source" (JList []) d) :: after')%list /\
  other_fields "source" (dict_set "source" (JList []) d) =
    other_fields "source" d /\
  (dict_get "source" d = Some (JList []) ->
   dict_set "source" (JList []) d = d).
Proof.
  intros Hm Hs Hb Ha. split; [| split].
  - apply (clean_loop_middle before after before' after' (JDict d)
             (Some _) Hb Ha).
    apply (clean_cell_text d [] Hm).
    unfold normalized_source.
    destruct Hs as [Hs | [Hs | Hs]]; rewrite Hs; reflexivity.
  - apply other_fields_set.
  - apply dict_set_same_value.
Qed.

Lemma clean_empty_source_kept_witness :
  clean_loop [JDict code_cell; JDict empty_list_cell; JDict empty_text_cell;
              JDict no_source_cell] =
  Ok [JDict code_cell; JDict empty_list_cell;
      JDict [("cell_type", JStr "markdown"); ("source", JList [])];
      JDict [("cell_type", JStr "markdown"); ("metadata", JDict []);
             ("source", JList [])]].
Proof.
  apply (clean_empty_source_kept empty_list_cell [JDict code_cell]
           [JDict empty_text_cell; JDict no_source_cell] [JDict code_cell]
           [JDict [("cell_type", JStr "markdown"); ("source", JList [])];
            JDict [("cell_type", JStr "markdown"); ("metadata", JDict []);
                   ("source", JList [])]]).
  - reflexivity.
  - left. reflexivity.
  - reflexivity.
  - reflexivity.
Defined.

(** C6: a cell whose [cell_type] is not ["markdown"] is in the output as it
    is in the input, whatever its source, anywhere in a sequence that the
    cleaner accepts. *)
Theorem clean_keeps_other_cell_types
  (d : dict) (v : json) (before after before' after' : list json) :
  dict_get "cell_type" d = Some v ->
  v <> JStr "markdown" ->
  clean_loop before = Ok before' ->
  clean_loop after = Ok after' ->
  clean_cell (JDict d) = Ok (Some (JDict d)) /\
  clean_loop (before ++ JDict d :: after) =
    Ok (before' ++ JDict d :: after')%list.
Proof.
  intros Ht Hv Hb Ha.
  assert (Hc : clean_cell (JDict d) = Ok (Some (JDict d))).
  { apply clean_cell_not_markdown. rewrite Ht.
    apply not_markdown_other. exact Hv. }
  split; [exact Hc |].
  apply (clean_loop_middle before after before' after' (JDict d)
           (Some (JDict d)) Hb Ha Hc).
Qed.

Lemma clean_keeps_other_cell_types_witness :
  badge_text "url = 'assets/colab-badge.svg'" = true /\
  clean_loop [JDict badge_only_cell; JDict code_cell; JDict title_badge_cell] =
  Ok [JDict code_cell;
      JDict [("cell_type", JStr "markdown");
             ("metadata", JDict []);
             ("source", JList [JStr ("# Title" ++ newline)])]].
Proof.
  split; [reflexivity |].
  apply (clean_keeps_other_cell_types code_cell (JStr "code")
           [JDict badge_only_cell] [JDict title_badge_cell] []
           [JDict [("cell_type", JStr "markdown");
                   ("metadata", JDict []);
                   ("source", JList [JStr ("# Title" ++ newline)])]]).
  - reflexivity.
  - discriminate.
  - reflexivity.
  - reflexivity.
Defined.

(** C10: a cell without [cell_type] is in the output as it is in the input:
    its source, a string or a list, with badge lines or without, is neither
    split into lines nor filtered. *)
Theorem clean_keeps_untyped_cell
  (d : dict) (before after before' after' : list json) :
  dict_get "cell_type" d = None ->
  clean_loop before = Ok before' ->
  clean_loop after = Ok after' ->
  clean_cell (JDict d) = Ok (Some (JDict d)) /\
  clean_loop (before ++ JDict d :: after) =
    Ok (before' ++ JDict d :: after')%list.
Proof.
  intros Ht Hb Ha.
  assert (Hc : clean_cell (JDict d) = Ok (Some (JDict d))).
  { apply clean_cell_not_markdown. rewrite Ht. reflexivity. }
  split; [exact Hc |].
  apply (clean_loop_middle before after before' after' (JDict d)
           (Some (JDict d)) Hb Ha Hc).
Qed.

Lemma clean_keeps_untyped_cell_witness :
  dict_get "source" untyped_cell =
    Some (JStr ("see" ++ newline ++ old_badge_line)) /\
  badge_text old_badge_line = true /\
  clean_loop [JDict badge_only_cell; JDict untyped_cell] =
    Ok [JDict untyped_cell].
Proof.
  split; [reflexivity |]. split; [reflexivity |].
  apply (clean_keeps_untyped_cell untyped_cell [JDict badge_only_cell] []
           [] []); reflexivity.
Defined.

(** ** Properties of the badge cell *)

Section QuoteLemmas.

Lemma length_app (a b : string) :
  String.length (a ++ b) = (String.length a + String.length b)%nat.
Proof. induction a as [| c a IH]; simpl; congruence. Qed.

Lemma app_assoc (a b c : string) : (a ++ b) ++ c = a ++ (b ++ c).
Proof. induction a as [| x a IH]; simpl; congruence. Qed.

Lemma list_ascii_app (a b : string) :
  list_ascii_of_string (a ++ b) =
  (list_ascii_of_string a ++ list_ascii_of_string b)%list.
Proof. induction a as [| x a IH]; simpl; congruence. Qed.

Lemma endswith_app (a b suffix : string) :
  (String.length suffix <= String.length b)%nat ->
  endswith (a ++ b) suffix = endswith b suffix.
Proof.
  intros Hlen. induction a as [| c a IH]; [reflexivity |].
  cbn [append endswith]. rewrite IH.
  destruct (String.eqb (String c (a ++ b)) suffix) eqn:E; [| reflexivity].
  apply String.eqb_eq in E. subst suffix.
  cbn [String.length] in Hlen. rewrite length_app in Hlen. lia.
Qed.

(** The digits of [percent_hex] are never escaped themselves. *)
Lemma percent_hex_safe (c : ascii) :
  forallb (fun x => always_safe x || Ascii.eqb x "%")
          (list_ascii_of_string (percent_hex c)) = true.
Proof.
  destruct c as [[] [] [] [] [] [] [] []]; vm_compute; reflexivity.
Qed.

Lemma percent_hex_chars (c : ascii) :
  Forall (fun x => always_safe x = true \/ x = "%"%char)
         (list_ascii_of_string (percent_hex c)).
Proof.
  apply Forall_forall. intros x Hx.
  pose proof (percent_hex_safe c) as H.
  rewrite forallb_forall in H. specialize (H x Hx).
  apply orb_true_iff in H. destruct H as [H | H]; [left; exact H | right].
  apply Ascii.eqb_eq. exact H.
Qed.

Lemma quoter_chars (c : ascii) :
  Forall (fun x => always_safe x = true \/ x = "%"%char)
         (list_ascii_of_string (quoter "" c)).
Proof.
  unfold quoter. cbn [in_safe list_ascii_of_string existsb].
  rewrite orb_false_r. destruct (always_safe c) eqn:E.
  - constructor; [left; exact E | constructor].
  - apply percent_hex_chars.
Qed.

Lemma quote_chars (s : string) :
  Forall (fun x => always_safe x = true \/ x = "%"%char)
         (list_ascii_of_string (quote s "")).
Proof.
  induction s as [| c s IH]; [constructor |].
  cbn [quote]. rewrite list_ascii_app. apply Forall_app.
  split; [apply quoter_chars | exact IH].
Qed.

Lemma quote_cons (c : ascii) (s : string) :
  quote (String c s) "" =
  (if always_safe c then String c "" else percent_hex c) ++ quote s "".
Proof.
  cbn [quote]. unfold quoter. cbn [in_safe list_ascii_of_string existsb].
  rewrite orb_false_r. reflexivity.
Qed.

End QuoteLemmas.

(** C4: the contract of the builder.  The cell has the three fields
    [cell_type], [metadata] and [source]: ["markdown"], the empty mapping,
    and a one-element sequence.  Its element is the anchor whose [href] is
    [https://colab.research.google.com/github/{repo}/blob/{quote(branch)}/{file_path}],
    with [repo] and [file_path] as given, and it does not end with a
    newline.  The quoted branch keeps a byte that is always safe, replaces
    any other byte [c] by [percent_hex c], and so holds only safe bytes and
    [%]: a slash becomes [%2F] and a space [%20]. *)
Theorem create_badge_cell_contract (repo branch file_path : string) :
  let url := "https://colab.research.google.com/github/" ++ repo ++
             "/blob/" ++ quote branch "" ++ "/" ++ file_path in
  let html := "<a href=" ++ dq ++ url ++ dq ++ " target=" ++ dq ++
              "_parent" ++ dq ++ "><img src=" ++ dq ++
              "https://colab.research.google.com/assets/colab-badge.svg" ++
              dq ++ " alt=" ++ dq ++ "Open In Colab" ++ dq ++ "/></a>" in
  create_badge_cell repo branch file_path =
    JDict [("cell_type", JStr "markdown");
           ("metadata", JDict []);
           ("source", JList [JStr html])] /\
  endswith html newline = false /\
  Forall (fun c => always_safe c = true \/ c = "%"%char)
         (list_ascii_of_string (quote branch "")) /\
  (forall c rest,
      quote (String c rest) "" =
      (if always_safe c then String c "" else percent_hex c) ++
      quote rest "") /\
  always_safe "/" = false /\ percent_hex "/" = "%2F" /\
  always_safe " " = false /\ percent_hex " " = "%20" /\
  quote "feature/x y" "" = "feature%2Fx%20y".
Proof.
  intros url html. split; [reflexivity |]. split.
  - subst html. rewrite <- !app_assoc. apply endswith_app. simpl. lia.
  - split; [apply quote_chars |]. split; [apply quote_cons |].
    repeat split; reflexivity.
Qed.

(** ** Properties of the file loop *)

(** C9: a file that cannot be read or parsed.  The exception is caught:
    [update_notebook] returns normally, the file system is the one before
    the call, and standard output has two more lines, the progress line and
    a line with the path and the text of the exception.  [main] goes on with
    the files that follow. *)
Theorem read_error_is_skipped
  (fs : Type) (path_exists : fs -> string -> bool)
  (load : fs -> string -> string + json)
  (dump : fs -> string -> json -> fs * option string)
  (w : world fs) (file_path repo branch msg : string) (rest : list string) :
  load (files w) file_path = inl msg ->
  let progress := "Updating badge for " ++ file_path ++ " -> " ++ branch in
  let report := "Error reading " ++ file_path ++ ": " ++ msg in
  let w' := World (files w) (List.app (stdout w) [progress; report]) in
  update_notebook load dump file_path repo branch w = (w', Ok tt) /\
  (path_exists (files w) file_path = true ->
   main path_exists load dump (Namespace (file_path :: rest) repo branch) w =
   main path_exists load dump (Namespace rest repo branch) w').
Proof.
  intros Hload progress report w'.
  assert (Hu : update_notebook load dump file_path repo branch w = (w', Ok tt)).
  { unfold update_notebook, print. cbn [files stdout]. rewrite Hload.
    subst w' progress report. cbn [files stdout].
    rewrite <- List.app_assoc. reflexivity. }
  split; [exact Hu |].
  intros He. unfold main. cbn [arg_files arg_repo arg_branch main_loop].
  rewrite He, Hu. reflexivity.
Qed.

Lemma read_error_is_skipped_witness :
  main toy_exists toy_load toy_dump
       (Namespace ["bad.ipynb"; "empty.ipynb"] "o/r" "main")
       (World toy_files []) =
  main toy_exists toy_load toy_dump
       (Namespace ["empty.ipynb"] "o/r" "main")
       (World toy_files
              ["Updating badge for bad.ipynb -> main";
               "Error reading bad.ipynb: Expecting value"]).
Proof.
  apply (read_error_is_skipped (list (string * string)) toy_exists toy_load
           toy_dump (World toy_files []) "bad.ipynb" "o/r" "main"
           "Expecting value" ["empty.ipynb"]).
  - reflexivity.
  - reflexivity.
Defined.

(** ** Further properties: the detector and the line splitter *)

Section TextLemmas.

Lemma app_empty_r (s : string) : s ++ "" = s.
Proof. induction s as [| c s IH]; simpl; congruence. Qed.

Lemma startswith_refl (n : string) : startswith n n = true.
Proof.
  induction n as [| c n IH]; [reflexivity |].
  simpl. rewrite Ascii.eqb_refl. exact IH.
Qed.

Lemma startswith_split (n h : string) :
  startswith n h = true -> exists rest, h = n ++ rest.
Proof.
  revert h. induction n as [| c n IH]; intros h H.
  - exists h. reflexivity.
  - destruct h as [| c' h]; simpl in H; [discriminate H |].
    apply andb_true_iff in H. destruct H as [Hc Hn].
    apply Ascii.eqb_eq in Hc. subst c'.
    destruct (IH h Hn) as (rest & ->). exists rest. reflexivity.
Qed.

Lemma contains_split (n h : string) :
  contains n h = true -> exists before after, h = before ++ n ++ after.
Proof.
  induction h as [| c h IH]; simpl; intros H.
  - rewrite orb_false_r in H. destruct (startswith_split n "" H) as (r & Hr).
    exists "", r. exact Hr.
  - apply orb_true_iff in H. destruct H as [H | H].
    + destruct (startswith_split n (String c h) H) as (r & Hr).
      exists "", r. exact Hr.
    + destruct (IH H) as (b & a & ->). exists (String c b), a. reflexivity.
Qed.

Lemma contains_middle (n before after : string) :
  contains n (before ++ n ++ after) = true.
Proof.
  apply contains_app_r, contains_app_l, contains_startswith, startswith_refl.
Qed.

Lemma string_of_list_ascii_app (a b : list ascii) :
  string_of_list_ascii (a ++ b) =
  string_of_list_ascii a ++ string_of_list_ascii b.
Proof. induction a as [| c a IH]; simpl; congruence. Qed.

Lemma string_of_rev_cons (c : ascii) (rcur : list ascii) :
  string_of_rev (c :: rcur) = string_of_rev rcur ++ String c "".
Proof.
  unfold string_of_rev. cbn [rev]. apply string_of_list_ascii_app.
Qed.

Lemma string_of_rev_cons_app (c : ascii) (rcur : list ascii) (t : string) :
  string_of_rev (c :: rcur) ++ t = string_of_rev rcur ++ String c t.
Proof. rewrite string_of_rev_cons, app_assoc. reflexivity. Qed.

Lemma join_splitlines_from (rcur : list ascii) (s : string) :
  join (splitlines_from rcur s) = string_of_rev rcur ++ s.
Proof.
  revert rcur. induction s as [| c t IH]; intros rcur.
  - destruct rcur as [| c rcur]; [reflexivity |].
    cbn [splitlines_from join fold_right]. reflexivity.
  - cbn [splitlines_from].
    destruct (ends_with_boundary (c :: rcur) && _).
    + cbn [join fold_right]. fold (join (splitlines_from [] t)).
      rewrite IH. apply string_of_rev_cons_app.
    + rewrite IH. apply string_of_rev_cons_app.
Qed.

Lemma string_of_rev_not_empty (c : ascii) (rcur : list ascii) :
  string_of_rev (c :: rcur) <> "".
Proof.
  rewrite string_of_rev_cons. intros H.
  apply (f_equal String.length) in H. rewrite length_app in H.
  simpl in H. lia.
Qed.

Lemma splitlines_from_not_empty (rcur : list ascii) (s : string) :
  Forall (fun line => line <> "") (splitlines_from rcur s).
Proof.
  revert rcur. induction s as [| c t IH]; intros rcur.
  - destruct rcur as [| c rcur]; constructor; [| constructor].
    apply string_of_rev_not_empty.
  - cbn [splitlines_from].
    destruct (ends_with_boundary (c :: rcur) && _); [| apply IH].
    constructor; [apply string_of_rev_not_empty | apply IH].
Qed.

Lemma in_join (line : string) (lines : list string) :
  In line lines -> exists before after, join lines = before ++ line ++ after.
Proof.
  induction lines as [| l lines IH]; simpl; intros H; [contradiction |].
  destruct H as [-> | H].
  - exists "", (join lines). reflexivity.
  - destruct (IH H) as (b & a & Hj). exists (l ++ b), a.
    fold (join lines). rewrite Hj, app_assoc. reflexivity.
Qed.

Lemma filter_plain_lines (lines : list string) :
  badge_text (join lines) = false ->
  filter (fun s => negb (contains "colab-badge.svg" s)) lines = lines.
Proof.
  intros H. apply forallb_filter_id. apply forallb_forall. intros l Hl.
  destruct (contains "colab-badge.svg" l) eqn:E; [| reflexivity].
  destruct (in_join l lines Hl) as (b & a & Hj).
  destruct (contains_split _ _ E) as (b' & a' & ->).
  exfalso. unfold badge_text in H. rewrite Hj in H.
  rewrite !app_assoc in H. rewrite <- (app_assoc b b' _) in H.
  rewrite contains_middle in H. discriminate H.
Qed.

End TextLemmas.

(** X1: the detector flags a text exactly when the text holds the name of
    the badge image somewhere. *)
Theorem is_badge_line_iff (s : string) :
  is_badge_line (JStr s) = Ok true <->
  exists before after, s = before ++ "colab-badge.svg" ++ after.
Proof.
  split.
  - intros H. injection H as H. apply contains_split. exact H.
  - intros (b & a & ->). cbn [is_badge_line].
    rewrite contains_middle. reflexivity.
Qed.

(** Splitting a text into lines loses nothing: the lines, joined, are the
    text, and no line is empty. *)
Lemma splitlines_join (s : string) :
  join (splitlines s) = s /\ Forall (fun line => line <> "") (splitlines s).
Proof.
  split.
  - apply (join_splitlines_from [] s).
  - apply splitlines_from_not_empty.
Qed.

(** X2: a markdown cell whose source is a text without the badge image name
    is kept with the lines of that text as source: the cleaner changes the
    form of the source and none of its characters. *)
Theorem clean_plain_text_cell (d : dict) (s : string) :
  dict_get "cell_type" d = Some (JStr "markdown") ->
  dict_get "source" d = Some (JStr s) ->
  badge_text s = false ->
  clean_cell (JDict d) =
    Ok (Some (JDict (dict_set "source" (JList (map JStr (splitlines s))) d))) /\
  join (splitlines s) = s.
Proof.
  intros Hm Hs Hb. split; [| apply splitlines_join].
  rewrite (clean_cell_text d (splitlines s) Hm)
    by (unfold normalized_source; rewrite Hs; reflexivity).
  cbv zeta. rewrite filter_plain_lines
    by (rewrite (proj1 (splitlines_join s)); exact Hb).
  rewrite was_badge_only_refl. reflexivity.
Qed.

Lemma clean_plain_text_cell_witness :
  clean_cell (JDict [("cell_type", JStr "markdown");
                     ("source", JStr ("# Title" ++ newline ++ "text"))]) =
  Ok (Some (JDict [("cell_type", JStr "markdown");
                   ("source", JList [JStr ("# Title" ++ newline);
                                     JStr "text"])])).
Proof.
  apply (clean_plain_text_cell
           [("cell_type", JStr "markdown");
            ("source", JStr ("# Title" ++ newline ++ "text"))]
           ("# Title" ++ newline ++ "text")); reflexivity.
Defined.


(** ** Further properties: the cleaner *)

Section CleanerFrame.

Lemma clean_cell_kept_fields (d : dict) (cell' : json) :
  clean_cell (JDict d) = Ok (Some cell') ->
  exists d',
    cell' = JDict d' /\
    other_fields "source" d' = other_fields "source" d /\
    forall k, k <> "source" -> dict_get k d' = dict_get k d.
Proof.
  destruct (not_markdown (dict_get "cell_type" d)) eqn:E.
  - rewrite (clean_cell_not_markdown d E). intros H. injection H as <-.
    exists d. auto.
  - rewrite (clean_cell_markdown d E). intros H.
    apply bind_ok in H. destruct H as (source & _ & H).
    apply bind_ok in H. destruct H as (new_source & _ & H).
    destruct (negb (was_badge_only source new_source)); [| discriminate H].
    injection H as <-. eexists. split; [reflexivity |]. split.
    + apply other_fields_set.
    + intros k Hk. apply dict_get_set_other. congruence.
Qed.

Lemma clean_cell_other (cell : json) (c : option json) :
  clean_cell cell = Ok c ->
  match c with
  | Some cell' =>
      is_other_cell cell' = is_other_cell cell /\
      (is_other_cell cell = true -> cell' = cell)
  | None => is_other_cell cell = false
  end.
Proof.
  destruct cell as [| | | | | | d]; try discriminate.
  cbn [is_other_cell].
  destruct (not_markdown (dict_get "cell_type" d)) eqn:E.
  - rewrite (clean_cell_not_markdown d E). intros H. injection H as <-.
    cbn [is_other_cell]. auto.
  - rewrite (clean_cell_markdown d E). intros H.
    apply bind_ok in H. destruct H as (source & _ & H).
    apply bind_ok in H. destruct H as (new_source & _ & H).
    destruct (negb (was_badge_only source new_source));
      injection H as <-; [| reflexivity].
    cbn [is_other_cell]. rewrite dict_get_set_other by discriminate.
    split; [exact E | discriminate].
Qed.

End CleanerFrame.

Lemma clean_loop_other_cells (cells cleaned : list json) :
  clean_loop cells = Ok cleaned ->
  (List.length cleaned <= List.length cells)%nat /\
  filter is_other_cell cleaned = filter is_other_cell cells.
Proof.
  revert cleaned. induction cells as [| cell rest IH]; simpl; intros cleaned H.
  - injection H as <-. auto.
  - apply bind_ok in H. destruct H as (c & Hc & H).
    apply bind_ok in H. destruct H as (r & Hr & H).
    injection H as <-. destruct (IH r Hr) as (Hlen & Hf).
    pose proof (clean_cell_other cell c Hc) as Ho.
    destruct c as [cell' |].
    + destruct Ho as (Ho & Hsame). simpl. rewrite Ho.
      split; [lia |].
      destruct (is_other_cell cell) eqn:E; [| exact Hf].
      rewrite (Hsame eq_refl), Hf. reflexivity.
    + rewrite Ho. split; [lia | exact Hf].
Qed.

(** X3: the cleaner never adds a cell, and it keeps every cell that is not
    a markdown cell: the cells of other types are the same, in the same
    order, before and after. *)
Theorem clean_loop_keeps_other_cells (cells cleaned : list json) :
  clean_loop cells = Ok cleaned ->
  (List.length cleaned <= List.length cells)%nat /\
  filter is_other_cell cleaned = filter is_other_cell cells.
Proof. apply clean_loop_other_cells. Qed.

Lemma clean_loop_keeps_other_cells_witness :
  exists cleaned,
    clean_loop [JDict badge_only_cell; JDict code_cell; JDict title_badge_cell;
                JDict untyped_cell] = Ok cleaned /\
    filter is_other_cell cleaned = [JDict code_cell; JDict untyped_cell].
Proof.
  destruct (clean_loop [JDict badge_only_cell; JDict code_cell;
                        JDict title_badge_cell; JDict untyped_cell])
    as [cleaned | e] eqn:E; [| vm_compute in E; discriminate E].
  exists cleaned. split; [reflexivity |].
  rewrite (proj2 (clean_loop_keeps_other_cells _ _ E)). reflexivity.
Defined.

(** X4: the cleaner is idempotent: its output, cleaned again, is
    unchanged. *)
Theorem clean_notebook_cells_idempotent (cells : json) (cleaned : list json) :
  clean_notebook_cells cells = Ok cleaned ->
  clean_notebook_cells (JList cleaned) = Ok cleaned.
Proof.
  unfold clean_notebook_cells. intros H.
  apply bind_ok in H. destruct H as (items & _ & H).
  cbn [iter bind]. apply (clean_loop_fixed items). exact H.
Qed.

Lemma clean_notebook_cells_idempotent_witness :
  clean_notebook_cells
    (JList [JDict code_cell;
            JDict [("cell_type", JStr "markdown");
                   ("metadata", JDict []);
                   ("source", JList [JStr ("# Title" ++ newline)])]]) =
  Ok [JDict code_cell;
      JDict [("cell_type", JStr "markdown");
             ("metadata", JDict []);
             ("source", JList [JStr ("# Title" ++ newline)])]].
Proof.
  apply (clean_notebook_cells_idempotent
           (JList [JDict badge_only_cell; JDict code_cell;
                   JDict title_badge_cell])).
  reflexivity.
Defined.

(** X5: the cleaner works cell by cell: the output for two sequences put
    end to end is the two outputs put end to end. *)
Theorem clean_notebook_cells_app (a b a' b' : list json) :
  clean_notebook_cells (JList a) = Ok a' ->
  clean_notebook_cells (JList b) = Ok b' ->
  clean_notebook_cells (JList (a ++ b)) = Ok (a' ++ b')%list.
Proof.
  unfold clean_notebook_cells. cbn [iter bind]. intros Ha Hb.
  rewrite clean_loop_app, Ha, Hb. reflexivity.
Qed.

Lemma clean_notebook_cells_app_witness :
  clean_notebook_cells
    (JList [JDict badge_only_cell; JDict code_cell; JDict untyped_cell]) =
  Ok [JDict code_cell; JDict untyped_cell].
Proof.
  apply (clean_notebook_cells_app [JDict badge_only_cell; JDict code_cell]
           [JDict untyped_cell] [JDict code_cell] [JDict untyped_cell]);
    reflexivity.
Defined.

(** X6: a cell that the cleaner keeps has, apart from ["source"], the
    fields it had, with the same values and in the same order. *)
Theorem clean_keeps_fields
  (d : dict) (before after cleaned : list json) :
  clean_loop (before ++ JDict d :: after) = Ok cleaned ->
  exists before' after',
    clean_loop before = Ok before' /\
    clean_loop after = Ok after' /\
    (cleaned = (before' ++ after')%list \/
     exists d',
       cleaned = (before' ++ JDict d' :: after')%list /\
       other_fields "source" d' = other_fields "source" d /\
       forall k, k <> "source" -> dict_get k d' = dict_get k d).
Proof.
  rewrite clean_loop_app. intros H.
  apply bind_ok in H. destruct H as (before' & Hb & H).
  apply bind_ok in H. destruct H as (y & Hy & H). injection H as <-.
  cbn [clean_loop] in Hy.
  apply bind_ok in Hy. destruct Hy as (c & Hc & Hy).
  apply bind_ok in Hy. destruct Hy as (after' & Ha & Hy). injection Hy as <-.
  exists before', after'. split; [exact Hb |]. split; [exact Ha |].
  destruct c as [cell' |]; [right | left; reflexivity].
  destruct (clean_cell_kept_fields d cell' Hc) as (d' & -> & Hf & Hg).
  exists d'. auto.
Qed.

Lemma clean_keeps_fields_witness :
  exists cleaned d',
    clean_loop [JDict code_cell; JDict title_badge_cell] = Ok cleaned /\
    nth_error cleaned 1 = Some (JDict d') /\
    dict_get "metadata" d' = Some (JDict []).
Proof.
  destruct (clean_loop [JDict code_cell; JDict title_badge_cell])
    as [cleaned | e] eqn:E; [| vm_compute in E; discriminate E].
  destruct (clean_keeps_fields title_badge_cell [JDict code_cell] []
              cleaned E) as (b' & a' & Hb & Ha & H).
  injection Hb as <-. injection Ha as <-.
  destruct H as [-> | (d' & -> & _ & Hg)]; [vm_compute in E; discriminate E |].
  exists (([JDict code_cell] ++ [JDict d'])%list), d'.
  split; [reflexivity |]. split; [reflexivity |].
  rewrite Hg by discriminate. reflexivity.
Defined.

(** X7: values that are not cells.  A cell that is not a mapping makes the
    cleaner raise [AttributeError], and a markdown cell whose source is
    [null], a boolean or a number makes it raise [TypeError], whatever
    follows, when the cells before are accepted. *)
Theorem clean_raises_on_bad_cell
  (cell : json) (before after before' : list json) :
  clean_loop before = Ok before' ->
  ((forall d, cell <> JDict d) ->
   clean_loop (before ++ cell :: after) = Raise AttributeError) /\
  (forall d v,
      cell = JDict d ->
      dict_get "cell_type" d = Some (JStr "markdown") ->
      dict_get "source" d = Some v ->
      iter v = Raise TypeError ->
      clean_loop (before ++ cell :: after) = Raise TypeError).
Proof.
  intros Hb. split.
  - intros Hc. rewrite clean_loop_app, Hb. cbn [bind clean_loop].
    destruct cell; try reflexivity. exfalso. apply (Hc d). reflexivity.
  - intros d v -> Hm Hs Hv. rewrite clean_loop_app, Hb. cbn [bind clean_loop].
    rewrite clean_cell_markdown by (rewrite Hm; reflexivity).
    unfold normalized_source. rewrite Hs.
    destruct v; try discriminate Hv; reflexivity.
Qed.

Lemma clean_raises_on_bad_cell_witness :
  clean_loop [JDict code_cell; JStr "cell"; JDict code_cell] =
    Raise AttributeError /\
  clean_loop [JDict code_cell;
              JDict [("cell_type", JStr "markdown"); ("source", JNull)]] =
    Raise TypeError.
Proof.
  split.
  - apply (clean_raises_on_bad_cell (JStr "cell") [JDict code_cell]
             [JDict code_cell] [JDict code_cell]);
      [reflexivity | discriminate].
  - apply (proj2 (clean_raises_on_bad_cell
                    (JDict [("cell_type", JStr "markdown"); ("source", JNull)])
                    [JDict code_cell] [] [JDict code_cell] eq_refl)
             [("cell_type", JStr "markdown"); ("source", JNull)] JNull);
      reflexivity.
Defined.


(** ** Further properties: the badge cell and its URL *)

Section QuoteInverse.

Lemma hex_round_trip (c : ascii) :
  ascii_of_nat (16 * hex_value (hex_digit (nat_of_ascii c / 16)) +
                hex_value (hex_digit (nat_of_ascii c mod 16))) = c.
Proof.
  destruct c as [[] [] [] [] [] [] [] []]; vm_compute; reflexivity.
Qed.

Lemma always_safe_not_percent (c : ascii) :
  always_safe c = true -> Ascii.eqb c "%" = false.
Proof.
  intros H. destruct (Ascii.eqb c "%") eqn:E; [| reflexivity].
  apply Ascii.eqb_eq in E. subst c. discriminate H.
Qed.

Lemma decode_quoted_quote (s : string) : decode_quoted (quote s "") = s.
Proof.
  induction s as [| c s IH]; [reflexivity |].
  rewrite quote_cons. destruct (always_safe c) eqn:E.
  - cbn [append decode_quoted]. rewrite (always_safe_not_percent c E), IH.
    reflexivity.
  - unfold percent_hex. cbn [append decode_quoted].
    change (Ascii.eqb "%" "%") with true. cbv iota.
    rewrite hex_round_trip, IH. reflexivity.
Qed.

Lemma app_inv_head (p a b : string) : p ++ a = p ++ b -> a = b.
Proof.
  induction p as [| c p IH]; simpl; intros H; [exact H |].
  injection H as H. apply IH. exact H.
Qed.

Lemma app_inv_tail (a b t : string) : a ++ t = b ++ t -> a = b.
Proof.
  revert b. induction a as [| c a IH]; intros b H.
  - destruct b as [| c' b]; [reflexivity |].
    apply (f_equal String.length) in H. simpl in H.
    rewrite length_app in H. lia.
  - destruct b as [| c' b].
    + apply (f_equal String.length) in H. simpl in H.
      rewrite length_app in H. lia.
    + simpl in H. injection H as -> H. rewrite (IH b H). reflexivity.
Qed.

End QuoteInverse.

(** X8: the quoting of the branch loses nothing.  Two branches with the
    same quoted form are the same branch, so for a given repository and
    path two branches never get the same URL. *)
Theorem colab_url_branch_injective (repo file_path b1 b2 : string) :
  (quote b1 "" = quote b2 "" -> b1 = b2) /\
  (colab_url repo b1 file_path = colab_url repo b2 file_path -> b1 = b2).
Proof.
  assert (Hq : quote b1 "" = quote b2 "" -> b1 = b2).
  { intros H. rewrite <- (decode_quoted_quote b1), H.
    apply decode_quoted_quote. }
  split; [exact Hq |].
  unfold colab_url. intros H.
  apply app_inv_head, app_inv_head, app_inv_head, app_inv_tail in H.
  apply Hq. exact H.
Qed.



(** X10: the cleaner drops the badge cell that the builder makes for any
    repository, branch and path, wherever the cell is in the sequence. *)
Theorem clean_drops_any_badge_cell
  (repo branch file_path : string) (before after before' after' : list json) :
  clean_loop before = Ok before' ->
  clean_loop after = Ok after' ->
  is_badge_line (JStr (badge_html repo branch file_path)) = Ok true /\
  clean_loop (before ++ create_badge_cell repo branch file_path :: after) =
    Ok (before' ++ after')%list.
Proof.
  intros Hb Ha. split.
  - cbn [is_badge_line]. rewrite badge_html_is_badge. reflexivity.
  - apply (clean_loop_middle before after before' after' _ None Hb Ha).
    apply clean_badge_cell.
Qed.

Lemma clean_drops_any_badge_cell_witness :
  clean_loop [JDict code_cell; create_badge_cell "a/b" "dev/1" "x y.ipynb";
              JDict untyped_cell] =
  Ok [JDict code_cell; JDict untyped_cell].
Proof.
  apply (clean_drops_any_badge_cell "a/b" "dev/1" "x y.ipynb"
           [JDict code_cell] [JDict untyped_cell]
           [JDict code_cell] [JDict untyped_cell]); reflexivity.
Defined.


(** ** Further properties: the updater *)

Section UpdaterInvariant.

Lemma filter_lines_text_kept (lines kept : list json) :
  filter_lines lines = Ok kept ->
  forallb is_text lines = true -> forallb is_text kept = true.
Proof.
  revert kept. induction lines as [| line rest IH]; simpl; intros kept H Ht.
  - injection H as <-. reflexivity.
  - apply bind_ok in H. destruct H as (b & _ & H).
    apply bind_ok in H. destruct H as (k & Hk & H). injection H as <-.
    apply andb_true_iff in Ht. destruct Ht as [Hl Hr].
    destruct b; simpl; [| rewrite Hl]; apply (IH k Hk Hr).
Qed.

Lemma clean_cell_is_cell (cell cell' : json) :
  is_cell cell = true -> clean_cell cell = Ok (Some cell') ->
  is_cell cell' = true.
Proof.
  destruct cell as [| | | | | | d]; try discriminate.
  destruct (not_markdown (dict_get "cell_type" d)) eqn:E.
  - rewrite (clean_cell_not_markdown d E). intros Hc H. injection H as <-.
    exact Hc.
  - rewrite (clean_cell_markdown d E). cbn [is_cell]. rewrite E.
    cbn [orb]. intros Hc H.
    apply bind_ok in H. destruct H as (source & Hs & H).
    apply bind_ok in H. destruct H as (new_source & Hf & H).
    destruct (negb (was_badge_only source new_source)); [| discriminate H].
    injection H as <-. cbn [is_cell].
    rewrite dict_get_set_same. cbn [is_source].
    rewrite (filter_lines_text_kept source new_source Hf);
      [apply orb_true_r |].
    unfold normalized_source in Hs.
    destruct (dict_get "source" d) as [[| | | | t | lines |] |];
      try discriminate Hc; injection Hs as <-.
    + apply forallb_forall. intros x Hx. apply in_map_iff in Hx.
      destruct Hx as (y & <- & _). reflexivity.
    + exact Hc.
    + reflexivity.
Qed.

Lemma clean_loop_is_cell (cells cleaned : list json) :
  forallb is_cell cells = true -> clean_loop cells = Ok cleaned ->
  forallb is_cell cleaned = true.
Proof.
  revert cleaned. induction cells as [| cell rest IH]; simpl;
    intros cleaned Hc H.
  - injection H as <-. reflexivity.
  - apply andb_true_iff in Hc. destruct Hc as [Hcell Hrest].
    apply bind_ok in H. destruct H as (c & Hcc & H).
    apply bind_ok in H. destruct H as (r & Hr & H). injection H as <-.
    destruct c as [cell' |]; [| apply (IH r Hrest Hr)].
    simpl. rewrite (clean_cell_is_cell cell cell' Hcell Hcc).
    apply (IH r Hrest Hr).
Qed.

Lemma cleaned_cells_is_cell (d : dict) (cleaned : list json) :
  is_notebook (JDict d) = true -> cleaned_cells d = Ok cleaned ->
  forallb is_cell cleaned = true.
Proof.
  unfold cleaned_cells, clean_notebook_cells. cbn [is_notebook].
  destruct (dict_get "cells" d) as [[| | | | | cells |] |];
    try discriminate; intros Hn H.
  - cbn [iter bind] in H. apply (clean_loop_is_cell cells cleaned Hn H).
  - injection H as <-. reflexivity.
Qed.

Lemma cleaned_cells_length (d : dict) (cells cleaned : list json) :
  dict_get "cells" d = Some (JList cells) -> cleaned_cells d = Ok cleaned ->
  (List.length cleaned <= List.length cells)%nat.
Proof.
  unfold cleaned_cells, clean_notebook_cells. intros -> H.
  cbn [iter bind] in H. apply (clean_loop_other_cells cells cleaned H).
Qed.

End UpdaterInvariant.


(** X11: the update keeps the data model.  The update of a notebook
    document returns a notebook document, which has at most one cell more
    than the input. *)
Theorem update_document_is_notebook
  (data : json) (repo branch file_path : string) :
  is_notebook data = true ->
  exists out cells',
    update_document data repo branch file_path = Ok out /\
    is_notebook out = true /\
    cells_of out = Some (JList cells') /\
    forall cells,
      cells_of data = Some (JList cells) ->
      (List.length cells' <= 1 + List.length cells)%nat.
Proof.
  intros Hn.
  destruct (update_document_total repo branch file_path data Hn)
    as (d & cleaned & -> & Hc & H1).
  eexists. exists (create_badge_cell repo branch file_path :: cleaned).
  split; [exact H1 |]. split; [| split].
  - cbn [is_notebook]. rewrite dict_get_set_same.
    change (is_cell (create_badge_cell repo branch file_path) &&
            forallb is_cell cleaned = true).
    rewrite (cleaned_cells_is_cell d cleaned Hn Hc). reflexivity.
  - cbn [cells_of]. apply dict_get_set_same.
  - cbn [cells_of]. intros cells Hcells.
    pose proof (cleaned_cells_length d cells cleaned Hcells Hc).
    simpl. lia.
Qed.

Lemma update_document_is_notebook_witness :
  exists out,
    update_document sample_notebook "o/r" "main" "nb.ipynb" = Ok out /\
    is_notebook out = true.
Proof.
  destruct (update_document_is_notebook sample_notebook "o/r" "main"
              "nb.ipynb") as (out & cells' & H & Hn & _); [reflexivity |].
  exists out. auto.
Defined.

(** X12: a new target replaces the old one.  Updating a notebook document
    for one repository, branch and path and then for another gives the
    document that the second update alone gives. *)
Theorem update_document_retarget
  (data : json) (repo1 branch1 path1 repo2 branch2 path2 : string) :
  is_notebook data = true ->
  exists once out,
    update_document data repo1 branch1 path1 = Ok once /\
    update_document once repo2 branch2 path2 = Ok out /\
    update_document data repo2 branch2 path2 = Ok out.
Proof.
  intros Hn.
  destruct (update_document_total repo1 branch1 path1 data Hn)
    as (d & cleaned & -> & Hc & H1).
  eexists. eexists. split; [exact H1 |].
  rewrite (update_document_ok repo2 branch2 path2 d cleaned Hc).
  split; [| reflexivity].
  rewrite (update_document_ok repo2 branch2 path2 _ cleaned).
  - rewrite dict_set_set. reflexivity.
  - unfold cleaned_cells, clean_notebook_cells.
    rewrite dict_get_set_same. cbn [iter bind clean_loop].
    rewrite clean_badge_cell. cbn [bind].
    rewrite (cleaned_cells_fixed d cleaned Hc). reflexivity.
Qed.

Lemma update_document_retarget_witness :
  exists once out,
    update_document sample_notebook "a/b" "dev" "old.ipynb" = Ok once /\
    update_document once "o/r" "main" "nb.ipynb" = Ok out /\
    update_document sample_notebook "o/r" "main" "nb.ipynb" = Ok out.
Proof.
  apply (update_document_retarget sample_notebook). reflexivity.
Defined.


(** ** Further properties: files and the loop of [main] *)

Section MainProperties.

Variable fs : Type.
Variable path_exists : fs -> string -> bool.
Variable load : fs -> string -> string + json.
Variable dump : fs -> string -> json -> fs * option string.

Lemma update_notebook_stdout (file_path repo branch : string) (w : world fs) :
  exists out,
    stdout (fst (update_notebook load dump file_path repo branch w)) =
    List.app (stdout w) out.
Proof.
  unfold update_notebook, print. cbn [files stdout].
  destruct (load (files w) file_path) as [e | data].
  - eexists. cbn [fst stdout]. rewrite <- List.app_assoc. reflexivity.
  - destruct (update_document data repo branch file_path) as [data' | e].
    + destruct (dump (files w) file_path data') as [files' [e |]];
        cbn [fst stdout files]; eexists;
        [rewrite <- List.app_assoc |]; reflexivity.
    + eexists. reflexivity.
Qed.

(** X13: the loop of [main] over two lists of paths put end to end is the
    loop over the first and then, unless an exception has left it, the loop
    over the second from the world the first has left. *)
Theorem main_loop_app (a b : list string) (repo branch : string) (w : world fs) :
  main_loop path_exists load dump (a ++ b) repo branch w =
  match main_loop path_exists load dump a repo branch w with
  | (w', Ok _) => main_loop path_exists load dump b repo branch w'
  | (w', Raise e) => (w', Raise e)
  end.
Proof.
  revert w. induction a as [| p a IH]; intros w; [reflexivity |].
  cbn [List.app main_loop].
  destruct (negb (path_exists (files w) p)); [apply IH |].
  destruct (update_notebook load dump p repo branch w) as [w' [[] | e]];
    [apply IH | reflexivity].
Qed.

(** X14: [main] only adds lines to standard output: what was printed
    before the run is the beginning of what is printed after it. *)
Theorem main_loop_stdout (paths : list string) (repo branch : string)
  (w : world fs) :
  exists out,
    stdout (fst (main_loop path_exists load dump paths repo branch w)) =
    List.app (stdout w) out.
Proof.
  revert w. induction paths as [| p paths IH]; intros w.
  - exists []. cbn [main_loop fst]. rewrite List.app_nil_r. reflexivity.
  - cbn [main_loop]. destruct (negb (path_exists (files w) p)).
    + destruct (IH (print ("File not found: " ++ p) w)) as (out & Hout).
      rewrite Hout. unfold print. cbn [stdout].
      rewrite <- List.app_assoc. eexists. reflexivity.
    + destruct (update_notebook_stdout p repo branch w) as (o1 & H1).
      destruct (update_notebook load dump p repo branch w) as [w' [[] | e]];
        cbn [fst] in H1.
      * destruct (IH w') as (o2 & H2). rewrite H2, H1.
        rewrite <- List.app_assoc. eexists. reflexivity.
      * cbn [fst]. eexists. exact H1.
Qed.

(** X15: when none of the paths exists, [main] prints one "File not found"
    line per path, in order, leaves the file system as it is and returns. *)
Theorem main_loop_missing (paths : list string) (repo branch : string)
  (w : world fs) :
  (forall p, In p paths -> path_exists (files w) p = false) ->
  main_loop path_exists load dump paths repo branch w =
  (World (files w)
         (List.app (stdout w) (map (fun p => "File not found: " ++ p) paths)),
   Ok tt).
Proof.
  revert w. induction paths as [| p paths IH]; intros w H.
  - cbn [main_loop map]. rewrite List.app_nil_r. destruct w; reflexivity.
  - cbn [main_loop]. rewrite (H p (or_introl eq_refl)). cbn [negb].
    rewrite IH by (intros q Hq; apply H; right; exact Hq).
    unfold print. cbn [files stdout map].
    rewrite <- List.app_assoc. reflexivity.
Qed.

Lemma update_notebook_returns (file_path repo branch : string) (w : world fs) :
  (forall data, load (files w) file_path = inr data -> is_notebook data = true) ->
  snd (update_notebook load dump file_path repo branch w) = Ok tt.
Proof.
  intros Hl. unfold update_notebook, print. cbn [files stdout].
  destruct (load (files w) file_path) as [e | data]; [reflexivity |].
  destruct (update_document_total repo branch file_path data (Hl data eq_refl))
    as (d & cleaned & _ & _ & ->).
  destruct (dump (files w) file_path _) as [files' [e |]]; reflexivity.
Qed.

(** X16: when every file that parses holds a notebook document, no
    exception leaves [main], whatever the read and write errors. *)
Theorem main_loop_returns (paths : list string) (repo branch : string)
  (w : world fs) :
  (forall f p data, load f p = inr data -> is_notebook data = true) ->
  snd (main_loop path_exists load dump paths repo branch w) = Ok tt.
Proof.
  intros Hl. revert w.
  induction paths as [| p paths IH]; intros w; [reflexivity |].
  cbn [main_loop]. destruct (negb (path_exists (files w) p)); [apply IH |].
  pose proof (update_notebook_returns p repo branch w (Hl (files w) p)) as Hu.
  destruct (update_notebook load dump p repo branch w) as [w' [[] | e]];
    [apply IH | discriminate Hu].
Qed.

End MainProperties.


Lemma main_loop_missing_witness :
  main_loop toy_exists toy_load toy_dump ["a.ipynb"; "b.ipynb"] "o/r" "main"
            (World toy_files []) =
  (World toy_files ["File not found: a.ipynb"; "File not found: b.ipynb"],
   Ok tt).
Proof.
  apply (main_loop_missing _ toy_exists toy_load toy_dump
           ["a.ipynb"; "b.ipynb"] "o/r" "main" (World toy_files [])).
  intros p [<- | [<- | []]]; reflexivity.
Defined.

Lemma main_loop_returns_witness :
  snd (main_loop toy_exists toy_load toy_dump
                 ["bad.ipynb"; "missing.ipynb"; "empty.ipynb"] "o/r" "main"
                 (World toy_files [])) = Ok tt.
Proof.
  apply (main_loop_returns _ toy_exists toy_load toy_dump).
  intros f p data. unfold toy_load.
  destruct (toy_read f p) as [text |]; [| discriminate].
  destruct (String.eqb text "{}"); [| discriminate].
  intros H. injection H as <-. reflexivity.
Defined.

(** X17: a file that is read, updated and written.  [update_notebook]
    hands to the writer the updated document, built with the path of the
    file itself, prints the progress line and nothing else, and returns. *)
Theorem update_notebook_writes
  (fs : Type) (load : fs -> string -> string + json)
  (dump : fs -> string -> json -> fs * option string)
  (w : world fs) (file_path repo branch : string) (data data' : json)
  (files' : fs) :
  load (files w) file_path = inr data ->
  update_document data repo branch file_path = Ok data' ->
  dump (files w) file_path data' = (files', None) ->
  update_notebook load dump file_path repo branch w =
  (World files'
         (List.app (stdout w)
                   ["Updating badge for " ++ file_path ++ " -> " ++ branch]),
   Ok tt).
Proof.
  intros Hl Hu Hd. unfold update_notebook, print. cbn [files stdout].
  rewrite Hl, Hu, Hd. reflexivity.
Qed.

Lemma update_notebook_writes_witness :
  update_notebook toy_load toy_dump "empty.ipynb" "o/r" "main"
                  (World toy_files []) =
  (World [("bad.ipynb", "not a notebook"); ("empty.ipynb", "<json>")]
         ["Updating badge for empty.ipynb -> main"],
   Ok tt).
Proof.
  apply (update_notebook_writes _ toy_load toy_dump (World toy_files [])
           "empty.ipynb" "o/r" "main" (JDict [])
           (JDict [("cells",
                    JList [create_badge_cell "o/r" "main" "empty.ipynb"])]));
    reflexivity.
Defined.

(** X18: a file that cannot be written.  The exception is caught:
    [update_notebook] returns, the file system is what the failed write
    left, standard output has the progress line and a line with the path
    and the text of the exception, and [main] goes on with the files that
    follow. *)
Theorem write_error_is_skipped
  (fs : Type) (path_exists : fs -> string -> bool)
  (load : fs -> string -> string + json)
  (dump : fs -> string -> json -> fs * option string)
  (w : world fs) (file_path repo branch msg : string) (data data' : json)
  (files' : fs) (rest : list string) :
  load (files w) file_path = inr data ->
  update_document data repo branch file_path = Ok data' ->
  dump (files w) file_path data' = (files', Some msg) ->
  let progress := "Updating badge for " ++ file_path ++ " -> " ++ branch in
  let report := "Error writing " ++ file_path ++ ": " ++ msg in
  let w' := World files' (List.app (stdout w) [progress; report]) in
  update_notebook load dump file_path repo branch w = (w', Ok tt) /\
  (path_exists (files w) file_path = true ->
   main path_exists load dump (Namespace (file_path :: rest) repo branch) w =
   main path_exists load dump (Namespace rest repo branch) w').
Proof.
  intros Hl Hu Hd progress report w'.
  assert (H : update_notebook load dump file_path repo branch w = (w', Ok tt)).
  { unfold update_notebook, print. cbn [files stdout].
    rewrite Hl, Hu, Hd. subst w' progress report. cbn [files stdout].
    rewrite <- List.app_assoc. reflexivity. }
  split; [exact H |].
  intros He. unfold main. cbn [arg_files arg_repo arg_branch main_loop].
  rewrite He, H. reflexivity.
Qed.

Lemma write_error_is_skipped_witness :
  main toy_exists toy_load toy_dump_denied
       (Namespace ["empty.ipynb"; "bad.ipynb"] "o/r" "main")
       (World toy_files []) =
  main toy_exists toy_load toy_dump_denied
       (Namespace ["bad.ipynb"] "o/r" "main")
       (World toy_files
              ["Updating badge for empty.ipynb -> main";
               "Error writing empty.ipynb: Permission denied"]).
Proof.
  apply (write_error_is_skipped _ toy_exists toy_load toy_dump_denied
           (World toy_files []) "empty.ipynb" "o/r" "main" "Permission denied"
           (JDict [])
           (JDict [("cells",
                    JList [create_badge_cell "o/r" "main" "empty.ipynb"])])
           toy_files ["bad.ipynb"]);
    reflexivity.
Defined.

(** X19: a file whose content parses to a value that the update rejects.
    The exception of [update_document] is not caught: it leaves
    [update_notebook] and [main], the file is not written, and the files
    that follow are not processed. *)
Theorem update_error_stops_main
  (fs : Type) (path_exists : fs -> string -> bool)
  (load : fs -> string -> string + json)
  (dump : fs -> string -> json -> fs * option string)
  (w : world fs) (file_path repo branch : string) (data : json) (e : exn)
  (rest : list string) :
  load (files w) file_path = inr data ->
  update_document data repo branch file_path = Raise e ->
  let progress := "Updating badge for " ++ file_path ++ " -> " ++ branch in
  let w' := World (files w) (List.app (stdout w) [progress]) in
  update_notebook load dump file_path repo branch w = (w', Raise e) /\
  (path_exists (files w) file_path = true ->
   main path_exists load dump (Namespace (file_path :: rest) repo branch) w =
   (w', Raise e)).
Proof.
  intros Hl Hu progress w'.
  assert (H : update_notebook load dump file_path repo branch w =
              (w', Raise e)).
  { unfold update_notebook, print. cbn [files stdout].
    rewrite Hl, Hu. reflexivity. }
  split; [exact H |].
  intros He. unfold main. cbn [arg_files arg_repo arg_branch main_loop].
  rewrite He, H. reflexivity.
Qed.

Lemma update_error_stops_main_witness :
  main toy_exists toy_load_array toy_dump
       (Namespace ["array.ipynb"; "empty.ipynb"] "o/r" "main")
       (World toy_files_array []) =
  (World toy_files_array ["Updating badge for array.ipynb -> main"],
   Raise TypeError).
Proof.
  apply (update_error_stops_main _ toy_exists toy_load_array toy_dump
           (World toy_files_array []) "array.ipynb" "o/r" "main" (JList [])
           TypeError ["empty.ipynb"]);
    reflexivity.
Defined.

(** ** Examples *)

Section Examples.

Let cr : string := String (ascii_of_nat 13) "".
Let e_acute : string := String (ascii_of_nat 195) (String (ascii_of_nat 169) "").
Let line_separator : string :=
  String (ascii_of_nat 226) (String (ascii_of_nat 128)
    (String (ascii_of_nat 168) "")).

Example splitlines_keeps_ends :
  splitlines ("a" ++ newline ++ "b" ++ cr ++ newline ++ newline ++ "c" ++ cr) =
  ["a" ++ newline; "b" ++ cr ++ newline; newline; "c" ++ cr].
Proof. reflexivity. Qed.

Example splitlines_line_separator :
  splitlines ("a" ++ line_separator ++ e_acute) =
  ["a" ++ line_separator; e_acute].
Proof. reflexivity. Qed.

Example splitlines_empty : splitlines "" = [].
Proof. reflexivity. Qed.

Example chars_of_text : chars ("a" ++ e_acute ++ "b") = ["a"; e_acute; "b"].
Proof. reflexivity. Qed.

Example quote_non_ascii :
  quote ("caf" ++ e_acute ++ "/1.0~rc") "" = "caf%C3%A9%2F1.0~rc".
Proof. reflexivity. Qed.

Example quote_keeps_safe : quote "a/b c" "/" = "a/b%20c".
Proof. reflexivity. Qed.

(** The scenario of the specification: a title and a badge in one cell. *)
Example update_title_and_badge :
  update_document
    (JDict [("cells",
             JList [JDict [("cell_type", JStr "markdown");
                           ("source",
                            JList [JStr ("# Title" ++ newline);
                                   JStr "<a href=...colab-badge.svg...></a>"])]])])
    "o/r" "main" "nb.ipynb" =
  Ok (JDict [("cells",
              JList [create_badge_cell "o/r" "main" "nb.ipynb";
                     JDict [("cell_type", JStr "markdown");
                            ("source", JList [JStr ("# Title" ++ newline)])]])]).
Proof. reflexivity. Qed.

Example badge_url_of_scenario :
  colab_url "o/r" "main" "nb.ipynb" =
  "https://colab.research.google.com/github/o/r/blob/main/nb.ipynb".
Proof. reflexivity. Qed.

(** Values outside the data model make the update raise. *)
Example update_of_a_list : update_document (JList []) "o/r" "main" "n" = Raise TypeError.
Proof. reflexivity. Qed.

Example update_of_null_cells :
  update_document (JDict [("cells", JNull)]) "o/r" "main" "n" = Raise TypeError.
Proof. reflexivity. Qed.

Example update_of_text_cell :
  update_document (JDict [("cells", JList [JStr "x"])]) "o/r" "main" "n" =
  Raise AttributeError.
Proof. reflexivity. Qed.

Example update_of_number_line :
  update_document
    (JDict [("cells", JList [JDict [("cell_type", JStr "markdown");
                                    ("source", JList [JInt 1])]])])
    "o/r" "main" "n" = Raise TypeError.
Proof. reflexivity. Qed.

(** A run over an unreadable file, a missing file and an empty document. *)
Example main_on_three_files :
  main toy_exists toy_load toy_dump
       (Namespace ["bad.ipynb"; "missing.ipynb"; "empty.ipynb"] "o/r" "main")
       (World toy_files []) =
  (World [("bad.ipynb", "not a notebook"); ("empty.ipynb", "<json>")]
         ["Updating badge for bad.ipynb -> main";
          "Error reading bad.ipynb: Expecting value";
          "File not found: missing.ipynb";
          "Updating badge for empty.ipynb -> main"],
   Ok tt).
Proof. reflexivity. Qed.

End Examples.
